(** * Nova product scraper: a shallow embedding of [web/services/scraper.js]

    The development follows the class [ProductScraper]: platform detection,
    the four page extractors and the AliExpress mobile-API extractor, the
    demo product, and [scrape], which selects an extractor, checks the data it
    returned and falls back to the demo product.

    JavaScript values are modelled by the type [value]; an object literal is
    an ordered list of (key, value) pairs, so that a product record of the
    model has exactly the keys the source writes, in the order it writes them.
    Everything the service obtains from outside (HTTP responses, the clock,
    cheerio's view of a document, the regular-expression engine, [JSON.parse],
    [parseFloat], [parseInt], [new URL]) is a field of the class [Runtime];
    every definition and theorem of the section [Scraper] holds for all
    runtimes.  Console output is not modelled. *)

From Stdlib Require Import String Ascii List Bool Arith NArith ZArith Lia.
From Stdlib Require Import Floats.SpecFloat.
Import ListNotations.

Local Open Scope string_scope.
Local Open Scope list_scope.

(* ================================================================== *)
(** ** JavaScript strings *)
(* ================================================================== *)

(** A string is a sequence of code units; the model covers the strings whose
    code units are below 256, one [ascii] per code unit. *)

Notation "a +++ b" := (String.append a b) (at level 60, right associativity).

(** [s.startsWith(p)] *)
Definition startsWith (s p : string) : bool := String.prefix p s.

(** [s.includes(sub)] *)
Fixpoint includes (s sub : string) : bool :=
  String.prefix sub s ||
  match s with
  | EmptyString => false
  | String _ rest => includes rest sub
  end.

(** One code unit of [s.toLowerCase()]: A-Z, and the capital letters of the
    Latin-1 block (0xC0-0xDE without the multiplication sign 0xD7). *)
Definition lowerUnit (c : ascii) : ascii :=
  let n := N_of_ascii c in
  if ((65 <=? n) && (n <=? 90) ||
      (192 <=? n) && (n <=? 222) && negb (n =? 215))%N
  then ascii_of_N (n + 32)
  else c.

Fixpoint toLowerCase (s : string) : string :=
  match s with
  | EmptyString => EmptyString
  | String c rest => String (lowerUnit c) (toLowerCase rest)
  end.

(** White space of [trim]: TAB, LF, VT, FF, CR, SP and NBSP. *)
Definition isSpace (c : ascii) : bool :=
  match N_of_ascii c with
  | 9 | 10 | 11 | 12 | 13 | 32 | 160 => true
  | _ => false
  end%N.

Fixpoint trimStart (s : string) : string :=
  match s with
  | EmptyString => EmptyString
  | String c rest => if isSpace c then trimStart rest else s
  end.

Fixpoint trimEnd (s : string) : string :=
  match s with
  | EmptyString => EmptyString
  | String c rest =>
      match trimEnd rest with
      | EmptyString => if isSpace c then EmptyString else String c EmptyString
      | t => String c t
      end
  end.

(** [s.trim()] *)
Definition trim (s : string) : string := trimEnd (trimStart s).

(** [s.split(sep)[0]] for a one-character separator. *)
Fixpoint splitHead (sep : ascii) (s : string) : string :=
  match s with
  | EmptyString => EmptyString
  | String c rest =>
      if Ascii.eqb c sep then EmptyString else String c (splitHead sep rest)
  end.

(** [s.replace(pat, rep)] for a non-empty string pattern [pat] and a
    replacement without dollar sign: the first occurrence is replaced. *)
Fixpoint replaceFirst (pat rep s : string) : string :=
  if String.prefix pat s
  then rep +++ substring (String.length pat)
                         (String.length s - String.length pat) s
  else match s with
       | EmptyString => EmptyString
       | String c rest => String c (replaceFirst pat rep rest)
       end.

(** [l.join(sep)] on a list of strings. *)
Definition join (sep : string) (l : list string) : string :=
  String.concat sep l.

(* ================================================================== *)
(** ** JavaScript numbers and values *)
(* ================================================================== *)

(** A number is an IEEE 754 binary64 datum. *)
Definition number : Type := spec_float.

Definition zero : number := S754_zero false.

Definition isZero (n : number) : bool :=
  match n with
  | S754_zero _ => true
  | _ => false
  end.

Definition isNaN (n : number) : bool :=
  match n with
  | S754_nan => true
  | _ => false
  end.

(** [m * 2^e] for the decimal literals of the source. *)
Definition lit (m : positive) (e : Z) : number := S754_finite false m e.

Definition num_49_99 : number := lit 7035467042882847 (-47).
Definition num_129_99 : number := lit 4573616527827272 (-45).
Definition num_4_8 : number := lit 5404319552844595 (-50).
Definition num_12847 : number := lit 7062712941019136 (-39).

#[local] Set Warnings "-register-all".

Inductive value : Type :=
| VUndef
| VNull
| VBool (b : bool)
| VNum (n : number)
| VStr (s : string)
| VArr (items : list value)
| VObj (fields : list (string * value)).

(** ToBoolean *)
Definition truthy (v : value) : bool :=
  match v with
  | VUndef | VNull => false
  | VBool b => b
  | VNum n => negb (isZero n || isNaN n)
  | VStr s => negb (String.eqb s "")
  | VArr _ | VObj _ => true
  end.

(** [a || b] *)
Definition orElse (a b : value) : value := if truthy a then a else b.

Definition nullish (v : value) : bool :=
  match v with
  | VUndef | VNull => true
  | _ => false
  end.

Fixpoint lookup (k : string) (fields : list (string * value)) : value :=
  match fields with
  | [] => VUndef
  | (k', v) :: rest => if String.eqb k k' then v else lookup k rest
  end.

(** [v.k] for a [v] that is neither [undefined] nor [null].  None of the keys
    read by the service is a built-in property of a string, number, boolean
    or array, so the access yields [undefined] on those. *)
Definition prop (v : value) (k : string) : value :=
  match v with
  | VObj fields => lookup k fields
  | _ => VUndef
  end.

(** [v?.k] *)
Definition optProp (v : value) (k : string) : value :=
  if nullish v then VUndef else prop v k.

(** SameValueZero, the comparison of [Array.prototype.includes].  Arrays and
    objects are compared by reference; the ones met here come from separate
    positions of parsed JSON, so two of them are never the same object. *)
Definition sameNumber (a b : number) : bool :=
  match a, b with
  | S754_zero _, S754_zero _ => true
  | S754_nan, S754_nan => true
  | S754_infinity s, S754_infinity t => Bool.eqb s t
  | S754_finite s m e, S754_finite t n f =>
      Bool.eqb s t && Pos.eqb m n && Z.eqb e f
  | _, _ => false
  end.

Definition sameValueZero (a b : value) : bool :=
  match a, b with
  | VUndef, VUndef => true
  | VNull, VNull => true
  | VBool x, VBool y => Bool.eqb x y
  | VNum x, VNum y => sameNumber x y
  | VStr x, VStr y => String.eqb x y
  | _, _ => false
  end.

(** [arr.includes(x)] on an array. *)
Definition arrIncludes (arr : list value) (x : value) : bool :=
  existsb (sameValueZero x) arr.

(** [x === 0] *)
Definition strictEqZero (v : value) : bool :=
  match v with
  | VNum n => isZero n
  | _ => false
  end.

(** [x === s] for a string literal [s]. *)
Definition strictEqStr (v : value) (s : string) : bool :=
  match v with
  | VStr t => String.eqb t s
  | _ => false
  end.

(** [arr.slice(0, n)] *)
Definition slice0 (n : nat) (arr : list value) : list value := firstn n arr.

(* ================================================================== *)
(** ** Exceptions *)
(* ================================================================== *)

(** Every value thrown in the service or by the libraries it calls is an
    [Error] object; the model keeps its name and message. *)
Record exn : Type := mkExn { exnName : string; message : string }.

Definition result (A : Type) : Type := (exn + A)%type.

Definition Ok {A} (a : A) : result A := inr a.
Definition Throw {A} (e : exn) : result A := inl e.
Definition TypeError {A} (msg : string) : result A :=
  Throw (mkExn "TypeError" msg).

Definition bindR {A B} (m : result A) (k : A -> result B) : result B :=
  match m with
  | inl e => inl e
  | inr a => k a
  end.

Notation "x <~ m ;; k" := (bindR m (fun x => k))
  (at level 61, m at next level, right associativity).

(** A method of [String.prototype] called on an arbitrary value: it exists
    only when the receiver is a string. *)
Definition asString (what : string) (v : value) : result string :=
  match v with
  | VStr s => Ok s
  | _ => TypeError (what +++ " is not a function")
  end.

(** [v.forEach(...)] and [v.map(...)] exist only on arrays. *)
Definition asArray (what : string) (v : value) : result (list value) :=
  match v with
  | VArr l => Ok l
  | _ => TypeError (what +++ " is not a function")
  end.

(** [v.k] for an arbitrary [v]: a TypeError on [undefined] and [null]. *)
Definition getProp (v : value) (k : string) : result value :=
  if nullish v
  then TypeError ("Cannot read properties of undefined (reading '" +++ k +++ "')")
  else Ok (prop v k).

(** [v.includes(x)]: defined on strings and on arrays. *)
Definition jsIncludes (v : value) (x : string) : result bool :=
  match v with
  | VStr s => Ok (includes s x)
  | VArr l => Ok (arrIncludes l (VStr x))
  | _ => TypeError "includes is not a function"
  end.

(** [v.length] of a value on which [includes] has just succeeded. *)
Definition jsLength (v : value) : nat :=
  match v with
  | VStr s => String.length s
  | VArr l => List.length l
  | _ => 0
  end.

(* ================================================================== *)
(** ** The runtime: everything the service obtains from outside *)
(* ================================================================== *)

Record RegExp : Type := mkRegExp { source : string; flags : string }.

(** A regular-expression literal without flags, and one with the flag g. *)
Definition re (src : string) : RegExp := mkRegExp src "".
Definition reG (src : string) : RegExp := mkRegExp src "g".

(** The second argument of [axios.get]. *)
Record AxiosConfig : Type := mkConfig {
  headers : list (string * string);
  timeout : option N;
  maxRedirects : option nat
}.

Class Runtime : Type := {
  World : Type;
  (** [(await axios.get(url, config)).data], or the error axios rejects with
      (network failure, timeout, status outside 2xx). *)
  axios_get : value -> AxiosConfig -> World -> result value * World;
  (** [new Date().toISOString()] *)
  Date_now_toISOString : World -> string * World;
  (** cheerio: a loaded document and a selection of its elements. *)
  Doc : Type;
  Sel : Type;
  cheerio_load : value -> result Doc;
  query : Doc -> string -> Sel;          (* $(selector) *)
  first : Sel -> Sel;                    (* .first() *)
  text : Sel -> string;                  (* .text() *)
  html : Sel -> option string;           (* .html(), null on no element *)
  attr : Sel -> string -> option string; (* .attr(name) *)
  data : Sel -> string -> value;         (* .data(name) *)
  each : Sel -> list Sel;                (* the elements visited by .each *)
  find : Sel -> string -> Sel;           (* .find(selector) *)
  (** [str.match(re)] for a regular expression without the flag g: the match
      and its groups; [str.replace(re, replacement)]. *)
  re_match : RegExp -> string -> option (list string);
  re_replace : RegExp -> string -> string -> string;
  JSON_parse : string -> result value;
  parseFloat : value -> number;
  parseInt : string -> number;           (* parseInt(str, 10) *)
  Number_toString : number -> string;
  (** [new URL(src, base).href] *)
  URL_href : string -> string -> result string
}.

(** The double quote and the line feed, as one-character strings. *)
Definition dq : string := String "034"%char EmptyString.
Definition nl : string := String "010"%char EmptyString.

Notation "a ||| b" := (orElse a b) (at level 50, left associativity).

(** [undefined] for an absent attribute, [null] for an absent element. *)
Definition optStr (o : option string) : value :=
  match o with
  | Some s => VStr s
  | None => VUndef
  end.

Definition optNull (o : option string) : value :=
  match o with
  | Some s => VStr s
  | None => VNull
  end.

(** [x || ""] for a string, [null] or [undefined]. *)
Definition orEmpty (o : option string) : string :=
  match o with
  | Some s => s
  | None => ""
  end.

(** [groups[i]] of a match. *)
Definition group (m : list string) (i : nat) : value :=
  optStr (nth_error m i).

(** [x || 0] on a number. *)
Definition numOrZero (n : number) : value :=
  VNum (if isZero n || isNaN n then zero else n).

Fixpoint mapR {A B} (f : A -> result B) (l : list A) : result (list B) :=
  match l with
  | [] => Ok []
  | a :: rest => b <~ f a ;; bs <~ mapR f rest ;; Ok (b :: bs)
  end.

(** [if (!images.includes(x)) images.push(x)] *)
Definition pushUnique (images : list value) (x : value) : list value :=
  if arrIncludes images x then images else images ++ [x].

(* ================================================================== *)
(** ** The service *)
(* ================================================================== *)

Section Scraper.

Context {RT : Runtime}.

(** An asynchronous method of the class: it reads and changes the world and
    either returns or rejects with an exception. *)
Definition M (A : Type) : Type := World -> result A * World.

Definition ret {A} (a : A) : M A := fun w => (Ok a, w).

Definition throw {A} (e : exn) : M A := fun w => (Throw e, w).

Definition bind {A B} (m : M A) (k : A -> M B) : M B :=
  fun w =>
    match m w with
    | (inl e, w') => (inl e, w')
    | (inr a, w') => k a w'
    end.

Notation "x <- m ;; k" := (bind m (fun x => k))
  (at level 61, m at next level, right associativity).

(** A synchronous computation inside an asynchronous method. *)
Definition liftR {A} (r : result A) : M A := fun w => (r, w).

(** [try { body } catch (e) { handler }] *)
Definition tryCatch {A} (body : M A) (handler : exn -> M A) : M A :=
  fun w =>
    match body w with
    | (inl e, w') => handler e w'
    | (inr a, w') => (inr a, w')
    end.

Definition now : M string := fun w => let (t, w') := Date_now_toISOString w in (Ok t, w').

(** ToString, as applied by a template literal. *)
Fixpoint ToString (v : value) : string :=
  match v with
  | VUndef => "undefined"
  | VNull => "null"
  | VBool true => "true"
  | VBool false => "false"
  | VNum n => Number_toString n
  | VStr s => s
  | VArr l => join "," (map (fun x => if nullish x then "" else ToString x) l)
  | VObj _ => "[object Object]"
  end.

Definition userAgent : string :=
  "Mozilla/5.0 (Macintosh; Intel Mac OS X 10_15_7) AppleWebKit/537.36 (KHTML, like Gecko) Chrome/122.0.0.0 Safari/537.36".

(* ------------------------------------------------------------------ *)
(** *** Demo product *)

Definition demoImages : list value :=
  [ VStr "https://images.unsplash.com/photo-1590658268037-6bf12165a8df?w=800&q=80";
    VStr "https://images.unsplash.com/photo-1598371839696-5c5bb00bdc28?w=800&q=80";
    VStr "https://images.unsplash.com/photo-1606220588913-b3aacb4d2f46?w=800&q=80";
    VStr "https://images.unsplash.com/photo-1484704849700-f032a568e944?w=800&q=80" ].

(** The object literal of [getDemoProduct], by the clock reading that
    [new Date().toISOString()] yields for [scrapedAt]. *)
Definition demoRecord (url platform scrapedAt : string) : value :=
  VObj
    [ ("platform", VStr platform);
      ("url", VStr url);
      ("title", VStr "Premium Wireless Bluetooth Earbuds Pro");
      ("price", VNum num_49_99);
      ("originalPrice", VNum num_129_99);
      ("currency", VStr "USD");
      ("images", VArr demoImages);
      ("description", VStr "Experience premium sound quality with our latest wireless earbuds featuring advanced active noise cancellation.");
      ("bullets", VArr
        [ VStr "Active Noise Cancellation blocks 98% of ambient noise";
          VStr "40-hour total battery life with wireless charging case";
          VStr "Premium 12mm audio drivers for rich sound";
          VStr "IPX5 water & sweat resistant";
          VStr "Touch controls for music & calls";
          VStr "Bluetooth 5.3 connectivity" ]);
      ("variants", VArr
        [ VObj [ ("name", VStr "Color");
                 ("options", VArr [ VObj [("name", VStr "Midnight Black")];
                                    VObj [("name", VStr "Pearl White")];
                                    VObj [("name", VStr "Rose Gold")] ]) ] ]);
      ("specifications", VArr
        [ VObj [("key", VStr "Battery Life"); ("value", VStr "8 hours (40 with case)")];
          VObj [("key", VStr "Bluetooth"); ("value", VStr "5.3")];
          VObj [("key", VStr "Driver Size"); ("value", VStr "12mm")];
          VObj [("key", VStr "Water Resistance"); ("value", VStr "IPX5")] ]);
      ("rating", VNum num_4_8);
      ("reviewCount", VNum num_12847);
      ("scrapedAt", VStr scrapedAt);
      ("isDemo", VBool true) ].

Definition getDemoProduct (url platform : string) : M value :=
  scrapedAt <- now ;;
  ret (demoRecord url platform scrapedAt).

(* ------------------------------------------------------------------ *)
(** *** Platform detection *)

Definition detectPlatform (url : string) : string :=
  let urlLower := toLowerCase url in
  if includes urlLower "aliexpress." then "aliexpress"
  else if includes urlLower "amazon." then "amazon"
  else if includes urlLower "alibaba.com" then "alibaba"
  else if includes urlLower "1688.com" then "1688"
  else if includes urlLower "cjdropshipping.com" then "cj"
  else "generic".

(* ------------------------------------------------------------------ *)
(** *** AliExpress, mobile API *)

Definition apiConfig : AxiosConfig :=
  mkConfig
    [ ("User-Agent", "Mozilla/5.0 (iPhone; CPU iPhone OS 16_0 like Mac OS X) AppleWebKit/605.1.15");
      ("Accept", "application/json") ]
    (Some 10000%N) None.

Definition scrapeAliExpressAPI (productId : value) : M value :=
  let apiUrl := "https://m.aliexpress.com/api/detail/v1/item/" +++ ToString productId in
  data <- axios_get (VStr apiUrl) apiConfig ;;
  if negb (truthy data) || negb (truthy (prop data "item"))
  then throw (mkExn "Error" "No data from API")
  else
    let item := prop data "item" in
    let def := optProp (prop item "sku") "def" in
    scrapedAt <- now ;;
    ret (VObj
      [ ("platform", VStr "aliexpress");
        ("productId", productId);
        ("title", prop item "title");
        ("price", VNum (parseFloat (optProp def "promotionPrice" ||| optProp def "price" ||| VNum zero)));
        ("originalPrice", VNum (parseFloat (optProp def "price" ||| VNum zero)));
        ("currency", VStr "USD");
        ("images", prop item "images" ||| VArr []);
        ("description", prop item "description" ||| VStr "");
        ("variants", VArr []);
        ("specifications", VArr []);
        ("scrapedAt", VStr scrapedAt) ]).

(* ------------------------------------------------------------------ *)
(** *** AliExpress *)

(** [url.match(/\/item\/(\d+)\.html/) || url.match(/\/(\d+)\.html/) ||
    url.match(/item\/(\d+)/)], then [productIdMatch[1]] or [null]. *)
Definition aliProductId (url : string) : value :=
  let productIdMatch :=
    match re_match (re "\/item\/(\d+)\.html") url with
    | Some m => Some m
    | None =>
        match re_match (re "\/(\d+)\.html") url with
        | Some m => Some m
        | None => re_match (re "item\/(\d+)") url
        end
    end in
  match productIdMatch with
  | Some m => group m 1
  | None => VNull
  end.

(** The block [if (productId) { try { ... } catch (e) { ... } }]: [Some] of
    the record it returns, [None] when control falls through to the page. *)
Definition aliTryAPI (productId : value) : M (option value) :=
  if truthy productId
  then tryCatch
         (apiData <- scrapeAliExpressAPI productId ;;
          ret (if truthy apiData && truthy (prop apiData "title")
               then Some apiData else None))
         (fun _ => ret None)
  else ret None.

Definition aliConfig : AxiosConfig :=
  mkConfig
    [ ("User-Agent", userAgent);
      ("Accept", "text/html,application/xhtml+xml");
      ("Accept-Language", "en-US,en;q=0.9");
      ("Cache-Control", "no-cache") ]
    (Some 20000%N) (Some 5).

Definition aliPatterns : list RegExp :=
  [ re "window\.runParams\s*=\s*(\{[\s\S]*?\});";
    re ("data:\s*(\{[\s\S]*?" +++ dq +++ "actionModule" +++ dq +++ "[\s\S]*?\})");
    re "__INIT_DATA__\s*=\s*(\{[\s\S]*?\});" ].

(** The loop over [patterns] for one script: the first pattern that matches
    and whose group parses as JSON. *)
Fixpoint aliParseFirst (content : string) (patterns : list RegExp) : option value :=
  match patterns with
  | [] => None
  | pattern :: rest =>
      match re_match pattern content with
      | Some m =>
          match nth_error m 1 with
          | Some captured =>
              match JSON_parse captured with
              | inr v => Some v
              | inl _ => aliParseFirst content rest
              end
          | None => aliParseFirst content rest
          end
      | None => aliParseFirst content rest
      end
  end.

(** [$("script").each(...)]: a later script overwrites [pageData]. *)
Definition aliPageData (doc : Doc) : value :=
  fold_left
    (fun pageData script =>
       let content := orEmpty (html script) in
       match aliParseFirst content aliPatterns with
       | Some v => v
       | None => pageData
       end)
    (each (query doc "script")) VNull.

Definition aliTitle (doc : Doc) (pageData : value) : value :=
  optProp (optProp pageData "pageModule") "title"
  ||| optProp (optProp pageData "titleModule") "subject"
  ||| VStr (trim (text (first (query doc "h1"))))
  ||| VStr (trim (text (query doc ("[data-pl=" +++ dq +++ "product-title" +++ dq +++ "]"))))
  ||| VStr (trim (splitHead "-" (text (query doc "title")))).

(** The pair (price, originalPrice) before parsing. *)
Definition aliPrice (pageData response : value) : result (value * value) :=
  let priceModule := optProp pageData "priceModule" in
  po <~ (if truthy priceModule
         then
           let activity := optProp (prop priceModule "minActivityAmount") "value" in
           let amount := optProp (prop priceModule "minAmount") "value" in
           price <~ (if truthy (activity ||| amount)
                     then Ok (activity ||| amount)
                     else
                       let formatted := prop priceModule "formatedActivityPrice" in
                       if nullish formatted then Ok VUndef
                       else s <~ asString "formatedActivityPrice.replace" formatted ;;
                            Ok (VStr (re_replace (reG "[^\d.]") s ""))) ;;
           Ok (price, amount)
         else Ok (VStr "0.00", VNull)) ;;
  let (price, originalPrice) := po in
  if strictEqStr price "0.00"
  then body <~ asString "response.data.match" response ;;
       match re_match (re "US\s*\$\s*([\d.,]+)") body with
       | Some priceMatch => Ok (group priceMatch 1, originalPrice)
       | None => Ok (price, originalPrice)
       end
  else Ok (price, originalPrice).

(** [imagePathList.forEach(...)] *)
Fixpoint aliPathImages (imagePathList : list value) (images : list value)
  : result (list value) :=
  match imagePathList with
  | [] => Ok images
  | img :: rest =>
      s <~ asString "img.startsWith" img ;;
      let imgUrl := if startsWith s "//" then "https:" +++ s else s in
      aliPathImages rest (pushUnique images (VStr imgUrl))
  end.

(** [$("img").each(...)] *)
Fixpoint aliTagImages (imgs : list Sel) (images : list value) : result (list value) :=
  match imgs with
  | [] => Ok images
  | img :: rest =>
      let src := optStr (attr img "src") ||| data img "src" ||| VStr "" in
      onCdn <~ jsIncludes src "alicdn.com" ;;
      isHttp <~ (if onCdn then jsIncludes src "http" else Ok false) ;;
      if onCdn && isHttp && negb (arrIncludes images src)
      then s <~ asString "src.replace" src ;;
           let largeSrc :=
             re_replace (mkRegExp "_\d+x\d+\.(jpg|png|webp)" "gi") s ".$1" in
           aliTagImages rest (pushUnique images (VStr largeSrc))
      else aliTagImages rest images
  end.

Definition aliImages (doc : Doc) (pageData : value) : result (list value) :=
  let imagePathList := optProp (optProp pageData "imageModule") "imagePathList" in
  fromData <~ (if truthy imagePathList
               then l <~ asArray "imagePathList.forEach" imagePathList ;;
                    aliPathImages l []
               else Ok []) ;;
  aliTagImages (each (query doc "img")) fromData.

Definition noConfig : AxiosConfig := mkConfig [] None None.

Definition aliDescription (pageData : value) : M value :=
  let descriptionUrl := optProp (optProp pageData "descriptionModule") "descriptionUrl" in
  if truthy descriptionUrl
  then tryCatch (axios_get descriptionUrl noConfig) (fun _ => ret (VStr ""))
  else ret (VStr "").

Definition aliVariantOption (v : value) : result value :=
  name <~ getProp v "propertyValueDisplayName" ;;
  let path := prop v "skuPropertyImagePath" in
  Ok (VObj [ ("name", name);
             ("image", if truthy path then VStr ("https:" +++ ToString path) else VNull) ]).

Definition aliVariant (p : value) : result value :=
  name <~ getProp p "skuPropertyName" ;;
  values <~ asArray "skuPropertyValues.map" (prop p "skuPropertyValues") ;;
  options <~ mapR aliVariantOption values ;;
  Ok (VObj [ ("name", name); ("options", VArr options) ]).

Definition aliVariants (pageData : value) : result (list value) :=
  let list := optProp (optProp pageData "skuModule") "productSKUPropertyList" in
  if truthy list
  then l <~ asArray "productSKUPropertyList.forEach" list ;; mapR aliVariant l
  else Ok [].

Definition aliSpecification (p : value) : result value :=
  key <~ getProp p "attrName" ;;
  Ok (VObj [ ("key", key); ("value", prop p "attrValue") ]).

Definition aliSpecifications (pageData : value) : result (list value) :=
  let props := optProp (optProp pageData "specsModule") "props" in
  if truthy props
  then l <~ asArray "props.forEach" props ;; mapR aliSpecification l
  else Ok [].

Definition scrapeAliExpress (url : string) : M value :=
  let productId := aliProductId url in
  apiData <- aliTryAPI productId ;;
  match apiData with
  | Some record => ret record
  | None =>
      response <- axios_get (VStr url) aliConfig ;;
      doc <- liftR (cheerio_load response) ;;
      let pageData := aliPageData doc in
      let title := aliTitle doc pageData in
      prices <- liftR (aliPrice pageData response) ;;
      images <- liftR (aliImages doc pageData) ;;
      description <- aliDescription pageData ;;
      variants <- liftR (aliVariants pageData) ;;
      specifications <- liftR (aliSpecifications pageData) ;;
      scrapedAt <- now ;;
      ret (VObj
        [ ("platform", VStr "aliexpress");
          ("productId", productId);
          ("url", VStr url);
          ("title", title ||| VStr "Product");
          ("price", numOrZero (parseFloat (fst prices)));
          ("originalPrice",
             if truthy (snd prices) then VNum (parseFloat (snd prices)) else VNull);
          ("currency", VStr "USD");
          ("images", VArr (slice0 15 images));
          ("description", description);
          ("variants", VArr variants);
          ("specifications", VArr specifications);
          ("scrapedAt", VStr scrapedAt) ])
  end.

(* ------------------------------------------------------------------ *)
(** *** Amazon *)

Definition amazonConfig : AxiosConfig :=
  mkConfig
    [ ("User-Agent", userAgent);
      ("Accept", "text/html,application/xhtml+xml");
      ("Accept-Language", "en-US,en;q=0.9") ]
    (Some 20000%N) None.

Definition amazonTitle (doc : Doc) : value :=
  VStr (trim (text (query doc "#productTitle")))
  ||| VStr (trim (text (first (query doc "h1")))).

Definition priceSelectors : list string :=
  [ ".a-price .a-offscreen";
    "#priceblock_ourprice";
    "#priceblock_dealprice";
    ".a-price-whole";
    "[data-a-color=" +++ dq +++ "price" +++ dq +++ "] .a-offscreen" ].

Fixpoint amazonPrice (doc : Doc) (selectors : list string) : string :=
  match selectors with
  | [] => "0.00"
  | selector :: rest =>
      let priceEl := text (first (query doc selector)) in
      if truthy (VStr priceEl)
      then re_replace (reG "[^\d.,]") priceEl ""
      else amazonPrice doc rest
  end.

Definition sizeSuffix : RegExp := re "\._.*_\.".

Definition amazonMainImage (doc : Doc) : result (list value) :=
  let mainImg := optStr (attr (query doc "#landingImage") "src")
                 ||| optStr (attr (query doc "#imgBlkFront") "src") in
  if truthy mainImg
  then s <~ asString "mainImg.replace" mainImg ;;
       Ok [VStr (re_replace sizeSuffix s ".")]
  else Ok [].

(** [$("#altImages img, .imageThumbnail img").each(...)] *)
Fixpoint amazonThumbnails (imgs : list Sel) (images : list value) : result (list value) :=
  match imgs with
  | [] => Ok images
  | img :: rest =>
      let src := optStr (attr img "src") ||| data img "old-hires" in
      if truthy src
      then s <~ asString "src.replace" src ;;
           amazonThumbnails rest (pushUnique images (VStr (re_replace sizeSuffix s ".")))
      else amazonThumbnails rest images
  end.

(** [imgData.initial.forEach(...)] inside [try]: an element on which
    [img.hiRes] throws ends the loop, and what was pushed before stays. *)
Fixpoint amazonHiRes (initial : list value) (images : list value) : list value :=
  match initial with
  | [] => images
  | img :: rest =>
      if nullish img then images
      else
        let hiRes := prop img "hiRes" in
        amazonHiRes rest
          (if truthy hiRes && negb (arrIncludes images hiRes)
           then images ++ [hiRes] else images)
  end.

(** The body of [$("script").each(...)] for one script; no exception leaves
    its [try] block. *)
Definition amazonScript (images : list value) (script : Sel) : list value :=
  let content := orEmpty (html script) in
  if includes content "colorImages"
  then
    match re_match (re "'colorImages'\s*:\s*(\{[\s\S]*?\})\s*,\s*'") content with
    | Some m =>
        match nth_error m 1 with
        | Some captured =>
            match JSON_parse (re_replace (reG "'") captured dq) with
            | inr imgData =>
                if nullish imgData then images
                else
                  let initial := prop imgData "initial" in
                  if truthy initial
                  then match initial with
                       | VArr l => amazonHiRes l images
                       | _ => images
                       end
                  else images
            | inl _ => images
            end
        | None => images
        end
    | None => images
    end
  else images.

Definition amazonImages (doc : Doc) : result (list value) :=
  main <~ amazonMainImage doc ;;
  thumbs <~ amazonThumbnails
              (each (query doc "#altImages img, .imageThumbnail img")) main ;;
  Ok (fold_left amazonScript (each (query doc "script")) thumbs).

Definition amazonBullets (doc : Doc) : list string :=
  fold_left
    (fun bullets el =>
       let t := trim (text el) in
       if truthy (VStr t) then bullets ++ [t] else bullets)
    (each (query doc "#feature-bullets li span")) [].

Definition amazonDescription (doc : Doc) (bullets : list string) : value :=
  optNull (html (query doc "#productDescription"))
  ||| VStr (join nl bullets)
  ||| VStr "".

Definition amazonOptions (el : Sel) : list value :=
  fold_left
    (fun options opt =>
       let optName :=
         match attr opt "title" with
         | Some t => VStr (replaceFirst "Click to select " "" t)
         | None => VUndef
         end ||| VStr (trim (text opt)) in
       let optImg := optStr (attr (find opt "img") "src") in
       if truthy optName
       then options ++ [VObj [("name", optName); ("image", optImg)]]
       else options)
    (each (find el "li")) [].

Definition amazonVariants (doc : Doc) : list value :=
  fold_left
    (fun variants el =>
       let name := replaceFirst ":" "" (trim (text (find el ".a-form-label"))) in
       let options := amazonOptions el in
       if truthy (VStr name) && negb (Nat.eqb (List.length options) 0)
       then variants ++ [VObj [("name", VStr name); ("options", VArr options)]]
       else variants)
    (each (query doc "#variation_color_name, #variation_size_name")) [].

Definition amazonRating (doc : Doc) : number :=
  let ratingText := ToString (optStr (attr (query doc "#acrPopover") "title") ||| VStr "") in
  parseFloat (match re_match (re "[\d.]+") ratingText with
              | Some m => group m 0
              | None => VUndef
              end ||| VStr "0").

Definition amazonReviewCount (doc : Doc) : number :=
  let reviewCountText := text (query doc "#acrCustomerReviewText") in
  parseInt (ToString (VStr (re_replace (reG "[^\d]") reviewCountText "") ||| VStr "0")).

Definition scrapeAmazon (url : string) : M value :=
  response <- axios_get (VStr url) amazonConfig ;;
  doc <- liftR (cheerio_load response) ;;
  let title := amazonTitle doc in
  let price := amazonPrice doc priceSelectors in
  images <- liftR (amazonImages doc) ;;
  let bullets := amazonBullets doc in
  let description := amazonDescription doc bullets in
  let variants := amazonVariants doc in
  let rating := amazonRating doc in
  let reviewCount := amazonReviewCount doc in
  scrapedAt <- now ;;
  ret (VObj
    [ ("platform", VStr "amazon");
      ("url", VStr url);
      ("title", title);
      ("price", numOrZero (parseFloat (VStr price)));
      ("currency", VStr "USD");
      ("images", VArr (slice0 15 images));
      ("description", description);
      ("bullets", VArr (map VStr bullets));
      ("variants", VArr variants);
      ("specifications", VArr []);
      ("rating", VNum rating);
      ("reviewCount", VNum reviewCount);
      ("scrapedAt", VStr scrapedAt) ]).

(* ------------------------------------------------------------------ *)
(** *** Alibaba *)

Definition alibabaConfig : AxiosConfig :=
  mkConfig [ ("User-Agent", userAgent); ("Accept", "text/html") ]
           (Some 20000%N) None.

Definition alibabaTitle (doc : Doc) : value :=
  VStr (trim (text (first (query doc ".module-pdp-title, .ma-title, h1"))))
  ||| VStr (trim (splitHead "-" (text (query doc "title")))).

Definition alibabaPrice (doc : Doc) : value :=
  let priceText := text (first (query doc ".module-pdp-price, .ma-spec-price")) in
  match re_match (re "[\d.,]+") priceText with
  | Some priceMatch => group priceMatch 0
  | None => VStr "0.00"
  end.

(** [$(".main-image-wrapper img, ...").each(...)]: the membership test is on
    [src] as found, the element pushed is [src] after the rewrite. *)
Fixpoint alibabaImages (imgs : list Sel) (images : list value) : result (list value) :=
  match imgs with
  | [] => Ok images
  | img :: rest =>
      let src := optStr (attr img "src") ||| data img "src" in
      if truthy src && negb (arrIncludes images src)
      then s <~ asString "src.startsWith" src ;;
           alibabaImages rest
             (images ++ [VStr (if startsWith s "//" then "https:" +++ s else s)])
      else alibabaImages rest images
  end.

Definition alibabaMoq (doc : Doc) : number :=
  let moqText := text (query doc ".module-pdp-moq, .ma-min-order") in
  parseInt (ToString (match re_match (re "\d+") moqText with
                      | Some m => group m 0
                      | None => VUndef
                      end ||| VStr "1")).

Definition alibabaImageSelector : string :=
  ".main-image-wrapper img, .detail-gallery img, .image-container img".

Definition scrapeAlibaba (url : string) : M value :=
  response <- axios_get (VStr url) alibabaConfig ;;
  doc <- liftR (cheerio_load response) ;;
  let title := alibabaTitle doc in
  let price := alibabaPrice doc in
  images <- liftR (alibabaImages (each (query doc alibabaImageSelector)) []) ;;
  let moq := alibabaMoq doc in
  priceStr <- liftR (asString "price.replace" price) ;;
  let description := optNull (html (query doc ".product-description, .do-entry-item")) ||| VStr "" in
  scrapedAt <- now ;;
  ret (VObj
    [ ("platform", VStr "alibaba");
      ("url", VStr url);
      ("title", title);
      ("price", numOrZero (parseFloat (VStr (replaceFirst "," "" priceStr))));
      ("currency", VStr "USD");
      ("images", VArr (slice0 15 images));
      ("description", description);
      ("variants", VArr []);
      ("specifications", VArr []);
      ("moq", VNum moq);
      ("scrapedAt", VStr scrapedAt) ]).

(* ------------------------------------------------------------------ *)
(** *** Generic website *)

Definition genericConfig : AxiosConfig :=
  mkConfig [ ("User-Agent", userAgent) ] (Some 15000%N) None.

Definition genericTitle (doc : Doc) : value :=
  VStr (trim (text (first (query doc "h1"))))
  ||| VStr (trim (text (first (query doc ("[itemprop=" +++ dq +++ "name" +++ dq +++ "]")))))
  ||| VStr (trim (text (query doc "title"))).

(** [$('[itemprop="image"], .product-image img, .gallery img, img').each(...)] *)
Fixpoint genericImages (url : string) (imgs : list Sel) (images : list value)
  : result (list value) :=
  match imgs with
  | [] => Ok images
  | img :: rest =>
      let src := optStr (attr img "src") ||| data img "src" in
      if truthy src
      then s <~ asString "src.startsWith" src ;;
           if startsWith s "data:"
           then genericImages url rest images
           else absolute <~ (if startsWith s "http" then Ok s else URL_href s url) ;;
                genericImages url rest (pushUnique images (VStr absolute))
      else genericImages url rest images
  end.

Definition genericPrice (doc : Doc) : value :=
  let priceText :=
    optStr (attr (query doc ("[itemprop=" +++ dq +++ "price" +++ dq +++ "]")) "content")
    ||| VStr (text (first (query doc ".price"))) in
  match re_match (re "[\d.,]+") (ToString priceText) with
  | Some priceMatch => group priceMatch 0
  | None => VStr "0.00"
  end.

Definition genericImageSelector : string :=
  "[itemprop=" +++ dq +++ "image" +++ dq +++ "], .product-image img, .gallery img, img".

Definition scrapeGeneric (url : string) : M value :=
  response <- axios_get (VStr url) genericConfig ;;
  doc <- liftR (cheerio_load response) ;;
  let title := genericTitle doc in
  images <- liftR (genericImages url (each (query doc genericImageSelector)) []) ;;
  let price := genericPrice doc in
  priceStr <- liftR (asString "price.replace" price) ;;
  let description :=
    optNull (html (query doc ("[itemprop=" +++ dq +++ "description" +++ dq +++ "]")))
    ||| VStr "" in
  scrapedAt <- now ;;
  ret (VObj
    [ ("platform", VStr "generic");
      ("url", VStr url);
      ("title", title);
      ("price", numOrZero (parseFloat (VStr (replaceFirst "," "" priceStr))));
      ("currency", VStr "USD");
      ("images", VArr (slice0 15 images));
      ("description", description);
      ("variants", VArr []);
      ("specifications", VArr []);
      ("scrapedAt", VStr scrapedAt) ]).

(* ------------------------------------------------------------------ *)
(** *** Fallback scraper *)

Definition num_99_99 : number := lit 7036170730324623 (-46).
Definition num_3247 : number := lit 7140228510777344 (-41).

(** [scrapeFallback(url, platform)]: no method of the class calls it. *)
Definition scrapeFallback (url platform : string) : M value :=
  scrapedAt <- now ;;
  ret (VObj
    [ ("platform", VStr platform);
      ("url", VStr url);
      ("title", VStr "Premium Wireless Earbuds - Active Noise Cancelling");
      ("price", VNum num_49_99);
      ("originalPrice", VNum num_99_99);
      ("currency", VStr "USD");
      ("images", VArr
        [ VStr "https://images.unsplash.com/photo-1590658268037-6bf12165a8df?w=800";
          VStr "https://images.unsplash.com/photo-1598371839696-5c5bb00bdc28?w=800";
          VStr "https://images.unsplash.com/photo-1606220588913-b3aacb4d2f46?w=800" ]);
      ("description", VStr "Experience crystal-clear audio with our premium wireless earbuds featuring active noise cancellation.");
      ("bullets", VArr
        [ VStr "Active Noise Cancellation";
          VStr "40-hour battery life with charging case";
          VStr "Premium audio drivers";
          VStr "IPX5 water resistant";
          VStr "Touch controls";
          VStr "Wireless charging compatible" ]);
      ("variants", VArr
        [ VObj [ ("name", VStr "Color");
                 ("options", VArr [ VObj [("name", VStr "Midnight Black")];
                                    VObj [("name", VStr "Pearl White")];
                                    VObj [("name", VStr "Rose Gold")] ]) ] ]);
      ("specifications", VArr
        [ VObj [("key", VStr "Battery Life"); ("value", VStr "8 hours (40 with case)")];
          VObj [("key", VStr "Bluetooth"); ("value", VStr "5.3")];
          VObj [("key", VStr "Driver Size"); ("value", VStr "12mm")];
          VObj [("key", VStr "Noise Cancellation"); ("value", VStr "Active (ANC)")];
          VObj [("key", VStr "Water Resistance"); ("value", VStr "IPX5")] ]);
      ("rating", VNum num_4_8);
      ("reviewCount", VNum num_3247);
      ("scrapedAt", VStr scrapedAt);
      ("isDemo", VBool true) ]).

(* ------------------------------------------------------------------ *)
(** *** Main scrape method *)

(** The [switch (platform)] of [scrape]. *)
Definition extract (platform url : string) : M value :=
  if String.eqb platform "aliexpress" then scrapeAliExpress url
  else if String.eqb platform "amazon" then scrapeAmazon url
  else if String.eqb platform "alibaba" then scrapeAlibaba url
  else scrapeGeneric url.

(** The condition [!result.title || result.title.includes("404") ||
    result.title.length < 5 || result.price === 0]; evaluating it throws
    when [title] is a value without a method [includes]. *)
Definition invalidData (res : value) : result bool :=
  let title := prop res "title" in
  if negb (truthy title) then Ok true
  else has404 <~ jsIncludes title "404" ;;
       if has404 then Ok true
       else if Nat.ltb (jsLength title) 5 then Ok true
       else Ok (strictEqZero (prop res "price")).

(** The check of the data an extractor returned, inside the [try] block. *)
Definition validate (url platform : string) (res : value) : M value :=
  invalid <- liftR (invalidData res) ;;
  if invalid then getDemoProduct url platform else ret res.

Definition scrape (url : string) : M value :=
  let platform := detectPlatform url in
  tryCatch
    (res <- extract platform url ;;
     validate url platform res)
    (fun error => getDemoProduct url platform).

(* ------------------------------------------------------------------ *)
(** *** The route POST /api/scrape *)

(** [scrape] called with an arbitrary value, as the route does: the first
    statement, [url.toLowerCase()], is outside the [try] block and throws
    unless [url] is a string. *)
Definition scrapeValue (url : value) : M value :=
  match url with
  | VStr s => scrape s
  | _ =>
      liftR (if nullish url
             then TypeError "Cannot read properties of undefined (reading 'toLowerCase')"
             else TypeError "url.toLowerCase is not a function")
  end.

(** [const { k } = v]: a TypeError when [v] is [undefined] or [null]. *)
Definition destructure (source k : string) (v : value) : result value :=
  if nullish v
  then TypeError ("Cannot destructure property '" +++ k +++ "' of '" +++ source
                  +++ "' as it is " +++ ToString v +++ ".")
  else Ok (prop v k).

(** What the handler sends: the status set by [res.status] (200 when it is
    not called) and the argument of [res.json]. *)
Record Response : Type := mkResponse { status : nat; json : value }.

(** The handler of [app.post("/api/scrape", ...)], the same in the
    standalone, the embedded and the production server; its argument is
    [req.body]. *)
Definition apiScrape (body : value) : M Response :=
  tryCatch
    (url <- liftR (destructure "req.body" "url" body) ;;
     if negb (truthy url)
     then ret (mkResponse 400 (VObj [("error", VStr "URL is required")]))
     else productData <- scrapeValue url ;;
          ret (mkResponse 200 (VObj [("success", VBool true); ("data", productData)])))
    (fun error => ret (mkResponse 500 (VObj [("error", VStr (message error))]))).

End Scraper.


(* ================================================================== *)
(** ** A table-driven runtime for concrete scenarios *)
(* ================================================================== *)

(** A scenario fixes, as finite tables, what the outside answers: the
    response to each URL, the elements cheerio finds for each selector in a
    page, the matches of the regular expressions on the strings that occur,
    and the numbers [parseFloat] and [parseInt] read.  The world is the list
    of the clock readings still to come. *)
Module Mock.

Inductive Elem : Type :=
  mkElem (eText : string) (eHtml : string)
         (eAttrs : list (string * string))
         (eData : list (string * value))
         (eFind : list (string * list Elem)).

Definition eText (e : Elem) : string := let (t, _, _, _, _) := e in t.
Definition eHtml (e : Elem) : string := let (_, h, _, _, _) := e in h.
Definition eAttrs (e : Elem) : list (string * string) := let (_, _, a, _, _) := e in a.
Definition eData (e : Elem) : list (string * value) := let (_, _, _, d, _) := e in d.
Definition eFind (e : Elem) : list (string * list Elem) := let (_, _, _, _, f) := e in f.

Fixpoint assoc {A} (k : string) (l : list (string * A)) : option A :=
  match l with
  | [] => None
  | (k', a) :: rest => if String.eqb k k' then Some a else assoc k rest
  end.

Fixpoint assoc2 {A} (k1 k2 : string) (l : list (string * string * A)) : option A :=
  match l with
  | [] => None
  | (k1', k2', a) :: rest =>
      if String.eqb k1 k1' && String.eqb k2 k2' then Some a else assoc2 k1 k2 rest
  end.

Definition Page : Type := list (string * list Elem).

Record Scenario : Type := mkScenario {
  responses : list (string * result value);
  pages : list (string * Page);
  matches : list (string * string * list string);
  replacements : list (string * string * string);
  floats : list (string * number);
  ints : list (string * number);
  parsed : list (string * value);
  resolved : list (string * string * string)
}.

Definition networkError : exn := mkExn "AxiosError" "Network Error".

Definition headElem (sel : list Elem) : option Elem :=
  match sel with
  | [] => None
  | e :: _ => Some e
  end.

Definition runtime (sc : Scenario) : Runtime := {|
  World := list string;
  axios_get := fun url _ w =>
    (match url with
     | VStr u => match assoc u (responses sc) with
                 | Some r => r
                 | None => inl networkError
                 end
     | _ => inl networkError
     end, w);
  Date_now_toISOString := fun w =>
    match w with
    | t :: rest => (t, rest)
    | [] => ("1970-01-01T00:00:00.000Z", [])
    end;
  Doc := Page;
  Sel := list Elem;
  cheerio_load := fun content =>
    match content with
    | VStr h => match assoc h (pages sc) with
                | Some p => inr p
                | None => inr []
                end
    | _ => inl (mkExn "Error" "cheerio.load() expects a string")
    end;
  query := fun doc selector =>
    match assoc selector doc with
    | Some els => els
    | None => []
    end;
  first := firstn 1;
  text := fun sel => String.concat "" (map eText sel);
  html := fun sel => option_map eHtml (headElem sel);
  attr := fun sel name =>
    match headElem sel with
    | Some e => assoc name (eAttrs e)
    | None => None
    end;
  data := fun sel name =>
    match headElem sel with
    | Some e => lookup name (eData e)
    | None => VUndef
    end;
  each := map (fun e => [e]);
  find := fun sel selector =>
    flat_map (fun e => match assoc selector (eFind e) with
                       | Some els => els
                       | None => []
                       end) sel;
  re_match := fun r s => assoc2 (source r) s (matches sc);
  re_replace := fun r s _ =>
    match assoc2 (source r) s (replacements sc) with
    | Some out => out
    | None => s
    end;
  JSON_parse := fun s =>
    match assoc s (parsed sc) with
    | Some v => inr v
    | None => inl (mkExn "SyntaxError" "Unexpected token")
    end;
  parseFloat := fun v =>
    match v with
    | VNum n => if isZero n then zero else n
    | VStr s => match assoc s (floats sc) with
                | Some n => n
                | None => S754_nan
                end
    | _ => S754_nan
    end;
  parseInt := fun s =>
    match assoc s (ints sc) with
    | Some n => n
    | None => S754_nan
    end;
  Number_toString := fun _ => "NaN";
  URL_href := fun src base =>
    match assoc2 src base (resolved sc) with
    | Some u => inr u
    | None => inl (mkExn "TypeError" "Invalid URL")
    end
|}.

(** An image element with the given [src]. *)
Definition imgElem (src : string) : Elem := mkElem "" "" [("src", src)] [] [].

(** An element with the given text. *)
Definition textElem (t : string) : Elem := mkElem t t [] [] [].

Definition num_12_99 : number := lit 7312719894942843 (-49).
Definition num_19_99 : number := lit 5626684784446013 (-48).
Definition one : number := lit 4503599627370496 (-52).

Definition clock0 : list string :=
  [ "2024-05-01T10:00:00.000Z"; "2024-05-01T10:00:01.250Z"; "2024-05-01T10:00:02.500Z" ].

(** Every request fails. *)
Definition offline : Scenario := mkScenario [] [] [] [] [] [] [] [].

(** The AliExpress mobile API answers for item 1005001234567890. *)
Definition aliUrl : string := "https://www.aliexpress.com/item/1005001234567890.html".

Definition aliApiItem : value :=
  VObj [ ("item", VObj
    [ ("title", VStr "Wireless Charger");
      ("sku", VObj [ ("def", VObj [ ("promotionPrice", VStr "12.99");
                                     ("price", VStr "19.99") ]) ]);
      ("images", VArr [ VStr "//ae01.alicdn.com/kf/charger-front.jpg";
                        VStr "//ae01.alicdn.com/kf/charger-back.jpg" ]) ]) ].

Definition aliApi : Scenario :=
  mkScenario
    [ ("https://m.aliexpress.com/api/detail/v1/item/1005001234567890", inr aliApiItem) ]
    []
    [ ("\/item\/(\d+)\.html", aliUrl, ["/item/1005001234567890.html"; "1005001234567890"]) ]
    []
    [ ("12.99", num_12_99); ("19.99", num_19_99) ]
    [] [] [].

(** A page of cjdropshipping.com, read by the generic extractor. *)
Definition cjUrl : string := "https://cjdropshipping.com/product/artisan-mug-p-1.html".

Definition cjHtml : string :=
  "<html><head><title>Artisan Mug</title></head><body><h1>Artisan Mug</h1><span class='price'>$12.99</span><img src='https://cf.cjdropshipping.com/mug.jpg'></body></html>".

Definition cjPage : Page :=
  [ ("h1", [textElem "Artisan Mug"]);
    ("title", [textElem "Artisan Mug"]);
    (".price", [textElem "$12.99"]);
    (genericImageSelector, [imgElem "https://cf.cjdropshipping.com/mug.jpg"]) ].

Definition cj : Scenario :=
  mkScenario
    [ (cjUrl, inr (VStr cjHtml)) ]
    [ (cjHtml, cjPage) ]
    [ ("[\d.,]+", "$12.99", ["12.99"]) ]
    []
    [ ("12.99", num_12_99) ]
    [] [] [].

(** An Alibaba page whose gallery holds an inline image and a
    protocol-relative one. *)
Definition alibabaUrl : string := "https://www.alibaba.com/product-detail/steel-bottle_1600.html".

Definition alibabaHtml : string :=
  "<html><head><title>Steel Bottle - Alibaba</title></head><body><h1>Steel Bottle 500ml</h1><div class='ma-spec-price'>$12.99</div><div class='detail-gallery'><img src='data:image/gif;base64,R0lGODlhAQABAAAAACw='><img src='//s.alicdn.com/kf/bottle.jpg'></div></body></html>".

Definition alibabaPage : Page :=
  [ (".module-pdp-title, .ma-title, h1", [textElem "Steel Bottle 500ml"]);
    ("title", [textElem "Steel Bottle - Alibaba"]);
    (".module-pdp-price, .ma-spec-price", [textElem "$12.99"]);
    (alibabaImageSelector, [ imgElem "data:image/gif;base64,R0lGODlhAQABAAAAACw=";
                       imgElem "//s.alicdn.com/kf/bottle.jpg" ]) ].

Definition alibaba : Scenario :=
  mkScenario
    [ (alibabaUrl, inr (VStr alibabaHtml)) ]
    [ (alibabaHtml, alibabaPage) ]
    [ ("[\d.,]+", "$12.99", ["12.99"]) ]
    []
    [ ("12.99", num_12_99) ]
    [ ("1", one) ]
    [] [].

(** An Amazon page whose main image has a protocol-relative address. *)
Definition amazonUrl : string := "https://www.amazon.com/dp/B0TEST1234".

Definition amazonHtml : string :=
  "<html><body><span id='productTitle'>Travel Kettle 0.5L</span><span class='a-price'><span class='a-offscreen'>$12.99</span></span><img id='landingImage' src='//m.media-amazon.com/images/I/kettle.jpg'></body></html>".

Definition amazonPage : Page :=
  [ ("#productTitle", [textElem "Travel Kettle 0.5L"]);
    (".a-price .a-offscreen", [textElem "$12.99"]);
    ("#landingImage", [imgElem "//m.media-amazon.com/images/I/kettle.jpg"]) ].

Definition amazon : Scenario :=
  mkScenario
    [ (amazonUrl, inr (VStr amazonHtml)) ]
    [ (amazonHtml, amazonPage) ]
    []
    [ ("[^\d.,]", "$12.99", "12.99") ]
    [ ("12.99", num_12_99); ("0", zero) ]
    [ ("0", zero) ]
    [] [].

(** The Alibaba page with the same protocol-relative image twice. *)
Definition alibabaTwicePage : Page :=
  [ (".module-pdp-title, .ma-title, h1", [textElem "Steel Bottle 500ml"]);
    (".module-pdp-price, .ma-spec-price", [textElem "$12.99"]);
    (alibabaImageSelector, [ imgElem "//s.alicdn.com/kf/bottle.jpg";
                             imgElem "//s.alicdn.com/kf/bottle.jpg" ]) ].

Definition alibabaTwiceHtml : string :=
  "<html><body><h1>Steel Bottle 500ml</h1><div class='ma-spec-price'>$12.99</div><div class='detail-gallery'><img src='//s.alicdn.com/kf/bottle.jpg'><img src='//s.alicdn.com/kf/bottle.jpg'></div></body></html>".

Definition alibabaTwice : Scenario :=
  mkScenario
    [ (alibabaUrl, inr (VStr alibabaTwiceHtml)) ]
    [ (alibabaTwiceHtml, alibabaTwicePage) ]
    [ ("[\d.,]+", "$12.99", ["12.99"]) ]
    []
    [ ("12.99", num_12_99) ]
    [ ("1", one) ]
    [] [].

(** The mobile API answering with the same image twice. *)
Definition aliApiTwice : Scenario :=
  mkScenario
    [ ("https://m.aliexpress.com/api/detail/v1/item/1005001234567890",
       inr (VObj [ ("item", VObj
         [ ("title", VStr "Wireless Charger");
           ("sku", VObj [ ("def", VObj [ ("price", VStr "19.99") ]) ]);
           ("images", VArr [ VStr "https://ae01.alicdn.com/kf/charger.jpg";
                             VStr "https://ae01.alicdn.com/kf/charger.jpg" ]) ]) ])) ]
    []
    [ ("\/item\/(\d+)\.html", aliUrl, ["/item/1005001234567890.html"; "1005001234567890"]) ]
    []
    [ ("19.99", num_19_99) ]
    [] [] [].

(** A blog page with a heading and no price anywhere. *)
Definition blogUrl : string := "https://blog.example.org/posts/artisan-mug".

Definition blogHtml : string :=
  "<html><head><title>Artisan Mug | Blog</title></head><body><h1>Artisan Mug</h1><p>Hand made.</p></body></html>".

Definition blogPage : Page :=
  [ ("h1", [textElem "Artisan Mug"]);
    ("title", [textElem "Artisan Mug | Blog"]) ].

Definition blog : Scenario :=
  mkScenario
    [ (blogUrl, inr (VStr blogHtml)) ]
    [ (blogHtml, blogPage) ]
    []
    []
    [ ("0.00", zero) ]
    [] [] [].

(** An AliExpress page without embedded data, heading or title, the mobile
    API being unreachable. *)
Definition aliPlainHtml : string :=
  "<html><body><div class='product-price'>US $12.99</div></body></html>".

Definition aliPlain : Scenario :=
  mkScenario
    [ (aliUrl, inr (VStr aliPlainHtml)) ]
    [ (aliPlainHtml, []) ]
    [ ("\/item\/(\d+)\.html", aliUrl, ["/item/1005001234567890.html"; "1005001234567890"]);
      ("US\s*\$\s*([\d.,]+)", aliPlainHtml, ["US $12.99"; "12.99"]) ]
    []
    [ ("12.99", num_12_99) ]
    [] [] [].

(** An AliExpress page whose embedded data lists a null SKU property, the
    mobile API being unreachable. *)
Definition quoted (s : string) : string := dq +++ s +++ dq.

Definition nullSkuJson : string :=
  "{" +++ quoted "skuModule" +++ ":{" +++ quoted "productSKUPropertyList" +++ ":[null]}}".

Definition nullSkuScript : string := "window.runParams = " +++ nullSkuJson +++ ";".

Definition nullSkuHtml : string :=
  "<html><body><h1>Wireless Charger</h1><script>" +++ nullSkuScript
  +++ "</script><div>US $12.99</div></body></html>".

Definition nullSkuPage : Page :=
  [ ("script", [mkElem nullSkuScript nullSkuScript [] [] []]);
    ("h1", [textElem "Wireless Charger"]) ].

Definition nullSkuData : value :=
  VObj [ ("skuModule", VObj [ ("productSKUPropertyList", VArr [VNull]) ]) ].

Definition nullSku : Scenario :=
  mkScenario
    [ (aliUrl, inr (VStr nullSkuHtml)) ]
    [ (nullSkuHtml, nullSkuPage) ]
    [ ("\/item\/(\d+)\.html", aliUrl, ["/item/1005001234567890.html"; "1005001234567890"]);
      ("window\.runParams\s*=\s*(\{[\s\S]*?\});", nullSkuScript, [nullSkuScript; nullSkuJson]);
      ("US\s*\$\s*([\d.,]+)", nullSkuHtml, ["US $12.99"; "12.99"]) ]
    []
    [ ("12.99", num_12_99) ]
    []
    [ (nullSkuJson, nullSkuData) ]
    [].

(** A shop page whose price has thousands separators. *)
Definition shopUrl : string := "https://shop.example.org/products/oak-table".

Definition shopHtml : string :=
  "<html><body><h1>Oak Dining Table</h1><span class='price'>$1,234,567.50</span></body></html>".

Definition shopPage : Page :=
  [ ("h1", [textElem "Oak Dining Table"]);
    (".price", [textElem "$1,234,567.50"]) ].

Definition num_1234 : number := lit 5427189394702336 (-42).

Definition shop : Scenario :=
  mkScenario
    [ (shopUrl, inr (VStr shopHtml)) ]
    [ (shopHtml, shopPage) ]
    [ ("[\d.,]+", "$1,234,567.50", ["1,234,567.50"]) ]
    []
    [ ("1234,567.50", num_1234) ]
    [] [] [].

(** A shop page with twenty images: one of them twice, an inline one, a
    protocol-relative one, eighteen different addresses in all. *)
Definition galleryUrl : string := "https://shop.example.org/products/oak-chair".

Definition galleryHtml : string :=
  "<html><body><h1>Oak Dining Chair</h1><span class='price'>$12.99</span><img src='https://cdn.example.org/i/01.jpg'><img src='data:image/gif;base64,R0lGODlhAQABAAAAACw='><img src='https://cdn.example.org/i/01.jpg'><img src='//cdn.example.org/i/02.jpg'><img src='https://cdn.example.org/i/03.jpg'><img src='https://cdn.example.org/i/04.jpg'><img src='https://cdn.example.org/i/05.jpg'><img src='https://cdn.example.org/i/06.jpg'><img src='https://cdn.example.org/i/07.jpg'><img src='https://cdn.example.org/i/08.jpg'><img src='https://cdn.example.org/i/09.jpg'><img src='https://cdn.example.org/i/10.jpg'><img src='https://cdn.example.org/i/11.jpg'><img src='https://cdn.example.org/i/12.jpg'><img src='https://cdn.example.org/i/13.jpg'><img src='https://cdn.example.org/i/14.jpg'><img src='https://cdn.example.org/i/15.jpg'><img src='https://cdn.example.org/i/16.jpg'><img src='https://cdn.example.org/i/17.jpg'><img src='https://cdn.example.org/i/18.jpg'></body></html>".

Definition galleryImgs : list Elem :=
    [ imgElem "https://cdn.example.org/i/01.jpg";
      imgElem "data:image/gif;base64,R0lGODlhAQABAAAAACw=";
      imgElem "https://cdn.example.org/i/01.jpg";
      imgElem "//cdn.example.org/i/02.jpg";
      imgElem "https://cdn.example.org/i/03.jpg";
      imgElem "https://cdn.example.org/i/04.jpg";
      imgElem "https://cdn.example.org/i/05.jpg";
      imgElem "https://cdn.example.org/i/06.jpg";
      imgElem "https://cdn.example.org/i/07.jpg";
      imgElem "https://cdn.example.org/i/08.jpg";
      imgElem "https://cdn.example.org/i/09.jpg";
      imgElem "https://cdn.example.org/i/10.jpg";
      imgElem "https://cdn.example.org/i/11.jpg";
      imgElem "https://cdn.example.org/i/12.jpg";
      imgElem "https://cdn.example.org/i/13.jpg";
      imgElem "https://cdn.example.org/i/14.jpg";
      imgElem "https://cdn.example.org/i/15.jpg";
      imgElem "https://cdn.example.org/i/16.jpg";
      imgElem "https://cdn.example.org/i/17.jpg";
      imgElem "https://cdn.example.org/i/18.jpg" ].

Definition galleryPage : Page :=
  [ ("h1", [textElem "Oak Dining Chair"]);
    (".price", [textElem "$12.99"]);
    (genericImageSelector, galleryImgs) ].

Definition gallery : Scenario :=
  mkScenario
    [ (galleryUrl, inr (VStr galleryHtml)) ]
    [ (galleryHtml, galleryPage) ]
    [ ("[\d.,]+", "$12.99", ["12.99"]) ]
    []
    [ ("12.99", num_12_99) ]
    []
    []
    [ ("//cdn.example.org/i/02.jpg", galleryUrl, "https://cdn.example.org/i/02.jpg") ].

(** The mobile API answering with a title that the check rejects. *)
Definition aliApiErrorPage : Scenario :=
  mkScenario
    [ ("https://m.aliexpress.com/api/detail/v1/item/1005001234567890",
       inr (VObj [ ("item", VObj
         [ ("title", VStr "Item 404 Pro");
           ("sku", VObj [ ("def", VObj [ ("price", VStr "12.99") ]) ]);
           ("images", VArr [ VStr "https://ae01.alicdn.com/kf/item.jpg";
                             VStr "https://ae01.alicdn.com/kf/item.jpg" ]) ]) ])) ]
    []
    [ ("\/item\/(\d+)\.html", aliUrl, ["/item/1005001234567890.html"; "1005001234567890"]) ]
    []
    [ ("12.99", num_12_99) ]
    [] [] [].

End Mock.


(* ================================================================== *)
(** ** Properties *)
(* ================================================================== *)

(** Detection in the form the specification describes it: an ordered table
    of (hostname fragment, platform id) in which the first fragment found
    decides and no fragment found yields the generic platform.  The entries
    are those of the [if] chain of [detectPlatform], in its order. *)
Definition platformTable : list (string * string) :=
  [ ("aliexpress.", "aliexpress");
    ("amazon.", "amazon");
    ("alibaba.com", "alibaba");
    ("1688.com", "1688");
    ("cjdropshipping.com", "cj") ].

Fixpoint firstMatch (table : list (string * string)) (s : string) : string :=
  match table with
  | [] => "generic"
  | (fragment, id) :: rest => if includes s fragment then id else firstMatch rest s
  end.

(** The string entries of an array: the URLs of an images list. *)
Fixpoint urlStrings (l : list value) : list string :=
  match l with
  | [] => []
  | VStr s :: rest => s :: urlStrings rest
  | _ :: rest => urlStrings rest
  end.

(** The outcomes of an extractor run that the validity check turns into the
    demo product, one constructor per criterion. *)
Inductive Rejected : result value -> Prop :=
| RejectedError (e : exn) :
    Rejected (inl e)
| RejectedMissingTitle (candidate : value) :
    truthy (prop candidate "title") = false ->
    Rejected (inr candidate)
| RejectedShortTitle (candidate : value) (s : string) :
    prop candidate "title" = VStr s -> String.length s < 5 ->
    Rejected (inr candidate)
| RejectedErrorPage (candidate : value) (s : string) :
    prop candidate "title" = VStr s -> includes s "404" = true ->
    Rejected (inr candidate)
| RejectedNoPrice (candidate : value) :
    strictEqZero (prop candidate "price") = true ->
    Rejected (inr candidate).

(** An entry of an images list that is a string and not protocol-relative. *)
Definition Absolute (v : value) : Prop :=
  exists s, v = VStr s /\ startsWith s "//" = false.

(** An entry the generic extractor keeps: it comes from a [src] that does
    not start with "data:", taken as found when it starts with "http" and
    resolved against the page URL otherwise. *)
Definition KeptSrc {RT : Runtime} (url : string) (v : value) : Prop :=
  exists src,
    startsWith src "data:" = false /\
    ( (startsWith src "http" = true /\ v = VStr src) \/
      (startsWith src "http" = false /\
       exists absolute, URL_href src url = inr absolute /\ v = VStr absolute) ).

(** The constant an extractor writes into [platform], by the platform the
    switch of [scrape] receives. *)
Definition extractorLabel (platform : string) : string :=
  if String.eqb platform "aliexpress" then "aliexpress"
  else if String.eqb platform "amazon" then "amazon"
  else if String.eqb platform "alibaba" then "alibaba"
  else "generic".

(** What one pattern yields on the content of a script: the parse of its
    first group, when the pattern matches and the group is valid JSON. *)
Definition patternData {RT : Runtime} (content : string) (pattern : RegExp)
  : option value :=
  match re_match pattern content with
  | Some m =>
      match nth_error m 1 with
      | Some captured =>
          match JSON_parse captured with
          | inr v => Some v
          | inl _ => None
          end
      | None => None
      end
  | None => None
  end.


(** A value that is a string with at least one character. *)
Definition isNonEmptyString (v : value) : bool :=
  match v with
  | VStr s => negb (String.eqb s "")
  | _ => false
  end.

Section Properties.

Context {RT : Runtime}.

Notation "x <- m ;; k" := (bind m (fun x => k))
  (at level 61, m at next level, right associativity).

(* ------------------------------------------------------------------ *)
(** *** Running a method *)

Lemma bind_inr {A B} (m : M A) (k : A -> M B) w b w' :
  bind m k w = (inr b, w') ->
  exists a w1, m w = (inr a, w1) /\ k a w1 = (inr b, w').
Proof.
  unfold bind. destruct (m w) as [[e | a] w1]; intro H.
  - discriminate.
  - exists a, w1. split; [reflexivity | exact H].
Qed.

Lemma liftR_inr {A} (r : result A) w a w' :
  liftR r w = (inr a, w') -> r = inr a /\ w' = w.
Proof.
  unfold liftR. intro H. inversion H. split; reflexivity.
Qed.

Lemma ret_inr {A} (x : A) w a w' :
  ret x w = (inr a, w') -> a = x /\ w' = w.
Proof.
  unfold ret, Ok. intro H. inversion H. split; reflexivity.
Qed.

Lemma now_inr w t w' :
  now w = (inr t, w') -> Date_now_toISOString w = (t, w').
Proof.
  unfold now, Ok. destruct (Date_now_toISOString w) as [t0 w0].
  intro H. inversion H. reflexivity.
Qed.

Lemma now_total w : now w = (inr (fst (Date_now_toISOString w)), snd (Date_now_toISOString w)).
Proof.
  unfold now, Ok. destruct (Date_now_toISOString w); reflexivity.
Qed.

Lemma bindR_inr {A B} (m : result A) (k : A -> result B) b :
  bindR m k = inr b -> exists a, m = inr a /\ k a = inr b.
Proof.
  destruct m as [e | a]; simpl; intro H.
  - discriminate.
  - exists a. split; [reflexivity | exact H].
Qed.

(** Decompose a successful run along its binds. *)
Ltac run H :=
  repeat first
    [ let a := fresh "a" in let w := fresh "w" in let E := fresh "E" in
      apply bind_inr in H as (a & w & E & H);
      try (apply liftR_inr in E as (E & ->))
    | let E := fresh "E" in apply ret_inr in H as (E & ->)
    | let E := fresh "E" in apply liftR_inr in H as (E & ->) ].

(* ------------------------------------------------------------------ *)
(** *** The demo product *)

Lemma getDemoProduct_total url platform w :
  exists r w', getDemoProduct url platform w = (inr r, w') /\
    prop r "platform" = VStr platform /\
    prop r "url" = VStr url /\
    prop r "title" = VStr "Premium Wireless Bluetooth Earbuds Pro" /\
    prop r "price" = VNum num_49_99 /\
    prop r "images" = VArr demoImages /\
    prop r "isDemo" = VBool true.
Proof.
  unfold getDemoProduct, bind. rewrite now_total. unfold ret, Ok.
  eexists. eexists. split; [reflexivity |].
  repeat split; reflexivity.
Qed.

Lemma invalidData_demo url platform w r w' :
  getDemoProduct url platform w = (inr r, w') -> invalidData r = inr false.
Proof.
  unfold getDemoProduct, bind. rewrite now_total. unfold ret, Ok.
  intro H. inversion H. reflexivity.
Qed.

Lemma getDemoProduct_eq url platform w :
  getDemoProduct url platform w =
  (inr (demoRecord url platform (fst (Date_now_toISOString w))),
   snd (Date_now_toISOString w)).
Proof.
  unfold getDemoProduct, bind. rewrite now_total. reflexivity.
Qed.

(* ------------------------------------------------------------------ *)
(** *** The validity check *)

Lemma validate_accepts url platform res w :
  invalidData res = inr false -> validate url platform res w = (inr res, w).
Proof.
  intro H. unfold validate, bind, liftR. rewrite H. reflexivity.
Qed.

Lemma validate_rejects url platform res w :
  invalidData res = inr true ->
  validate url platform res w = getDemoProduct url platform w.
Proof.
  intro H. unfold validate, bind, liftR. rewrite H. reflexivity.
Qed.

Lemma validate_throws url platform res w e :
  invalidData res = inl e -> validate url platform res w = (inl e, w).
Proof.
  intro H. unfold validate, bind, liftR. rewrite H. reflexivity.
Qed.

(** [scrape] in terms of the extractor run and the check. *)
Lemma scrape_unfold url w :
  scrape url w =
  match extract (detectPlatform url) url w with
  | (inl _, w1) => getDemoProduct url (detectPlatform url) w1
  | (inr res, w1) =>
      match invalidData res with
      | inr false => (inr res, w1)
      | _ => getDemoProduct url (detectPlatform url) w1
      end
  end.
Proof.
  unfold scrape, tryCatch, bind at 1.
  destruct (extract (detectPlatform url) url w) as [[e | res] w1]; [reflexivity |].
  destruct (invalidData res) as [e | [|]] eqn:E.
  - rewrite (validate_throws _ _ _ _ _ E). reflexivity.
  - rewrite (validate_rejects _ _ _ _ E).
    destruct (getDemoProduct_total url (detectPlatform url) w1) as (r & w' & -> & _).
    reflexivity.
  - rewrite (validate_accepts _ _ _ _ E). reflexivity.
Qed.

Lemma invalidData_rejected candidate :
  Rejected (inr candidate) -> invalidData candidate <> inr false.
Proof.
  intro R. inversion R as [ | c Ht | c s Ht Hl | c s Ht Hi | c Hp ]; subst;
    unfold invalidData.
  - rewrite Ht. simpl. discriminate.
  - rewrite Ht. destruct (truthy (VStr s)); simpl; [| discriminate].
    destruct (includes s "404"); [discriminate |].
    apply Nat.ltb_lt in Hl. rewrite Hl. discriminate.
  - rewrite Ht. destruct (truthy (VStr s)); simpl; [| discriminate].
    rewrite Hi. discriminate.
  - destruct (truthy (prop candidate "title")); simpl; [| discriminate].
    destruct (jsIncludes (prop candidate "title") "404") as [e | [|]]; simpl;
      try discriminate.
    destruct (Nat.ltb (jsLength (prop candidate "title")) 5); [discriminate |].
    rewrite Hp. discriminate.
Qed.

(** The two ways [scrape] ends. *)
Lemma scrape_outcome url w :
  (exists r w',
     scrape url w = (inr r, w') /\
     extract (detectPlatform url) url w = (inr r, w') /\
     invalidData r = inr false)
  \/
  (exists t w',
     scrape url w = (inr (demoRecord url (detectPlatform url) t), w')).
Proof.
  rewrite scrape_unfold.
  destruct (extract (detectPlatform url) url w) as [[e | res] w1].
  - right. rewrite getDemoProduct_eq. eauto.
  - destruct (invalidData res) as [e | [|]] eqn:V.
    + right. rewrite getDemoProduct_eq. eauto.
    + right. rewrite getDemoProduct_eq. eauto.
    + left. exists res, w1. auto.
Qed.

(* ------------------------------------------------------------------ *)
(** *** Claims about [scrape] and the check *)

(** C1. For every string [url] and every world, [scrape] returns a record
    and never an exception: either the selected extractor returned a record
    on which no criterion of the check fires, and [scrape] returns that
    record, or [scrape] returns what [getDemoProduct] builds for this URL and
    platform, a record whose [isDemo] is [true]. *)
Theorem scrape_never_throws : forall (url : string) (w : World),
  exists r w',
    scrape url w = (inr r, w') /\
    ( (extract (detectPlatform url) url w = (inr r, w') /\
       invalidData r = inr false)
      \/
      (exists w1,
         snd (extract (detectPlatform url) url w) = w1 /\
         getDemoProduct url (detectPlatform url) w1 = (inr r, w') /\
         prop r "isDemo" = VBool true) ).
Proof.
  intros url w. rewrite scrape_unfold.
  destruct (extract (detectPlatform url) url w) as [[e | res] w1] eqn:E.
  - destruct (getDemoProduct_total url (detectPlatform url) w1)
      as (r & w' & Hd & _ & _ & _ & _ & _ & Hdemo).
    exists r, w'. split; [exact Hd |]. right. exists w1. auto.
  - destruct (invalidData res) as [e | [|]] eqn:V.
    + destruct (getDemoProduct_total url (detectPlatform url) w1)
        as (r & w' & Hd & _ & _ & _ & _ & _ & Hdemo).
      exists r, w'. split; [exact Hd |]. right. exists w1. auto.
    + destruct (getDemoProduct_total url (detectPlatform url) w1)
        as (r & w' & Hd & _ & _ & _ & _ & _ & Hdemo).
      exists r, w'. split; [exact Hd |]. right. exists w1. auto.
    + exists res, w1. split; [reflexivity |]. left. auto.
Qed.

(** C2. When the run of the selected extractor ends in an exception, or in
    a candidate whose title is missing, shorter than 5 characters or contains
    "404", or whose price is 0, [scrape] returns the demo product built for
    this URL and platform: title "Premium Wireless Bluetooth Earbuds Pro",
    price 49.99, [isDemo] true. *)
Theorem scrape_rejected_gives_demo :
  forall (url : string) (w w1 : World) (outcome : result value),
    extract (detectPlatform url) url w = (outcome, w1) ->
    Rejected outcome ->
    scrape url w = getDemoProduct url (detectPlatform url) w1 /\
    exists r w',
      scrape url w = (inr r, w') /\
      prop r "title" = VStr "Premium Wireless Bluetooth Earbuds Pro" /\
      prop r "price" = VNum num_49_99 /\
      prop r "isDemo" = VBool true.
Proof.
  intros url w w1 outcome E R.
  assert (S : scrape url w = getDemoProduct url (detectPlatform url) w1).
  { rewrite scrape_unfold, E. destruct outcome as [e | res]; [reflexivity |].
    pose proof (invalidData_rejected res R) as N.
    destruct (invalidData res) as [e | [|]]; try reflexivity.
    exfalso. apply N. reflexivity. }
  split; [exact S |]. rewrite S.
  destruct (getDemoProduct_total url (detectPlatform url) w1)
    as (r & w' & Hd & _ & _ & Ht & Hp & _ & Hdemo).
  exists r, w'. auto.
Qed.

(** C9. The record [getDemoProduct] builds passes the check of [scrape]:
    its title is present, has no "404" and at least 5 characters, its price
    is not 0; the check returns it as it is, for whatever URL and platform
    the check runs. *)
Theorem demo_passes_validate :
  forall (url platform url' platform' : string) (w w2 : World),
  exists r w',
    getDemoProduct url platform w = (inr r, w') /\
    invalidData r = inr false /\
    validate url' platform' r w2 = (inr r, w2).
Proof.
  intros url platform url' platform' w w2.
  destruct (getDemoProduct_total url platform w) as (r & w' & Hd & _).
  exists r, w'. split; [exact Hd |].
  pose proof (invalidData_demo _ _ _ _ _ Hd) as V.
  split; [exact V |]. apply validate_accepts. exact V.
Qed.

(* ------------------------------------------------------------------ *)
(** *** The records the extractors build *)

Lemma scrapeAliExpressAPI_inr productId w r w' :
  scrapeAliExpressAPI productId w = (inr r, w') ->
  exists item price originalPrice t,
    r = VObj
      [ ("platform", VStr "aliexpress");
        ("productId", productId);
        ("title", prop item "title");
        ("price", VNum price);
        ("originalPrice", VNum originalPrice);
        ("currency", VStr "USD");
        ("images", prop item "images" ||| VArr []);
        ("description", prop item "description" ||| VStr "");
        ("variants", VArr []);
        ("specifications", VArr []);
        ("scrapedAt", VStr t) ].
Proof.
  unfold scrapeAliExpressAPI. intro H. run H.
  destruct (negb (truthy a) || negb (truthy (prop a "item"))).
  - discriminate.
  - run H. subst r. do 4 eexists. reflexivity.
Qed.

Lemma aliTryAPI_some productId w r w' :
  aliTryAPI productId w = (inr (Some r), w') ->
  scrapeAliExpressAPI productId w = (inr r, w').
Proof.
  unfold aliTryAPI. destruct (truthy productId).
  - unfold tryCatch, bind.
    destruct (scrapeAliExpressAPI productId w) as [[e | apiData] w1].
    + unfold ret, Ok. discriminate.
    + destruct (truthy apiData && truthy (prop apiData "title"));
        unfold ret, Ok; intro H; inversion H; reflexivity.
  - unfold ret, Ok. discriminate.
Qed.

Lemma scrapeAliExpress_inr url w r w' :
  scrapeAliExpress url w = (inr r, w') ->
  (exists w1, aliTryAPI (aliProductId url) w = (inr (Some r), w1))
  \/
  (exists w1 doc pageData title price originalPrice images description
          variants specifications t,
     aliTryAPI (aliProductId url) w = (inr None, w1) /\
     aliImages doc pageData = inr images /\
     r = VObj
       [ ("platform", VStr "aliexpress");
         ("productId", aliProductId url);
         ("url", VStr url);
         ("title", title);
         ("price", price);
         ("originalPrice", originalPrice);
         ("currency", VStr "USD");
         ("images", VArr (slice0 15 images));
         ("description", description);
         ("variants", VArr variants);
         ("specifications", VArr specifications);
         ("scrapedAt", VStr t) ]).
Proof.
  unfold scrapeAliExpress. intro H.
  apply bind_inr in H as (early & w1 & E & H).
  destruct early as [record |].
  - apply ret_inr in H as (-> & ->). left. exists w1. exact E.
  - run H. subst r. right.
    exists w1. do 10 eexists. split; [exact E |]. split; [eassumption |].
    reflexivity.
Qed.

Lemma scrapeAmazon_inr url w r w' :
  scrapeAmazon url w = (inr r, w') ->
  exists doc images title price description bullets variants rating reviewCount t,
    amazonImages doc = inr images /\
    r = VObj
      [ ("platform", VStr "amazon");
        ("url", VStr url);
        ("title", title);
        ("price", price);
        ("currency", VStr "USD");
        ("images", VArr (slice0 15 images));
        ("description", description);
        ("bullets", bullets);
        ("variants", variants);
        ("specifications", VArr []);
        ("rating", rating);
        ("reviewCount", reviewCount);
        ("scrapedAt", VStr t) ].
Proof.
  unfold scrapeAmazon. intro H. run H. subst r.
  do 10 eexists. split; [eassumption | reflexivity].
Qed.

Lemma scrapeAlibaba_inr url w r w' :
  scrapeAlibaba url w = (inr r, w') ->
  exists doc images title price description moq t,
    alibabaImages (each (query doc alibabaImageSelector)) [] = inr images /\
    r = VObj
      [ ("platform", VStr "alibaba");
        ("url", VStr url);
        ("title", title);
        ("price", price);
        ("currency", VStr "USD");
        ("images", VArr (slice0 15 images));
        ("description", description);
        ("variants", VArr []);
        ("specifications", VArr []);
        ("moq", moq);
        ("scrapedAt", VStr t) ].
Proof.
  unfold scrapeAlibaba. intro H. run H. subst r.
  do 7 eexists. split; [eassumption | reflexivity].
Qed.

Lemma scrapeGeneric_inr url w r w' :
  scrapeGeneric url w = (inr r, w') ->
  exists doc images title price description t,
    genericImages url (each (query doc genericImageSelector)) [] = inr images /\
    r = VObj
      [ ("platform", VStr "generic");
        ("url", VStr url);
        ("title", title);
        ("price", price);
        ("currency", VStr "USD");
        ("images", VArr (slice0 15 images));
        ("description", description);
        ("variants", VArr []);
        ("specifications", VArr []);
        ("scrapedAt", VStr t) ].
Proof.
  unfold scrapeGeneric. intro H. run H. subst r.
  do 6 eexists. split; [eassumption | reflexivity].
Qed.

(* ------------------------------------------------------------------ *)
(** *** Image lists *)

Lemma urlStrings_app l1 l2 :
  urlStrings (l1 ++ l2) = urlStrings l1 ++ urlStrings l2.
Proof.
  induction l1 as [| x l1 IH]; simpl; [reflexivity |].
  destruct x; simpl; rewrite ?IH; reflexivity.
Qed.

Lemma arrIncludes_false_not_in images s :
  arrIncludes images (VStr s) = false -> ~ In s (urlStrings images).
Proof.
  unfold arrIncludes.
  induction images as [| x l IH]; simpl; intro H; [tauto |].
  apply orb_false_elim in H as [Hx Hl].
  destruct x; simpl; try (apply IH; assumption).
  intros [E | I].
  - subst. simpl in Hx. rewrite String.eqb_refl in Hx. discriminate.
  - apply IH; assumption.
Qed.

Lemma NoDup_push images x :
  NoDup (urlStrings images) -> arrIncludes images x = false ->
  NoDup (urlStrings (images ++ [x])).
Proof.
  intros N H. rewrite urlStrings_app.
  destruct x; simpl; rewrite ?app_nil_r; try assumption.
  apply NoDup_app.
  - assumption.
  - constructor; [simpl; tauto | constructor].
  - intros a Ia [E | []]. subst a.
    exact (arrIncludes_false_not_in _ _ H Ia).
Qed.

Lemma pushUnique_NoDup images x :
  NoDup (urlStrings images) -> NoDup (urlStrings (pushUnique images x)).
Proof.
  intro N. unfold pushUnique.
  destruct (arrIncludes images x) eqn:E; [assumption |].
  apply NoDup_push; assumption.
Qed.

Lemma urlStrings_firstn_incl n l s :
  In s (urlStrings (firstn n l)) -> In s (urlStrings l).
Proof.
  revert n. induction l as [| x l IH]; intros [| n]; simpl; try tauto.
  destruct x; simpl; try apply IH.
  intros [E | I]; [left; assumption | right; eapply IH; eassumption].
Qed.

Lemma NoDup_urlStrings_firstn n l :
  NoDup (urlStrings l) -> NoDup (urlStrings (firstn n l)).
Proof.
  revert n. induction l as [| x l IH]; intros [| n]; simpl; intro N;
    try constructor.
  destruct x; simpl in *; try (apply IH; assumption).
  inversion N as [| ? ? Hn Hl]; subst. constructor.
  - intro I. apply Hn. eapply urlStrings_firstn_incl; eassumption.
  - apply IH; assumption.
Qed.

Lemma aliPathImages_NoDup l : forall images out,
  aliPathImages l images = inr out ->
  NoDup (urlStrings images) -> NoDup (urlStrings out).
Proof.
  induction l as [| img rest IH]; simpl; intros images out H N.
  - inversion H; subst; assumption.
  - apply bindR_inr in H as (s & _ & H).
    eapply IH; [exact H |]. apply pushUnique_NoDup; assumption.
Qed.

Lemma aliTagImages_NoDup imgs : forall images out,
  aliTagImages imgs images = inr out ->
  NoDup (urlStrings images) -> NoDup (urlStrings out).
Proof.
  induction imgs as [| img rest IH]; simpl; intros images out H N.
  - inversion H; subst; assumption.
  - apply bindR_inr in H as (onCdn & _ & H).
    apply bindR_inr in H as (isHttp & _ & H).
    destruct (onCdn && isHttp && negb (arrIncludes images _)).
    + apply bindR_inr in H as (s & _ & H).
      eapply IH; [exact H |]. apply pushUnique_NoDup; assumption.
    + eapply IH; eassumption.
Qed.

Lemma aliImages_NoDup doc pageData out :
  aliImages doc pageData = inr out -> NoDup (urlStrings out).
Proof.
  unfold aliImages. intro H.
  apply bindR_inr in H as (fromData & E & H).
  eapply aliTagImages_NoDup; [exact H |].
  destruct (truthy _).
  - apply bindR_inr in E as (l & _ & E).
    eapply aliPathImages_NoDup; [exact E | constructor].
  - inversion E; subst. constructor.
Qed.

Lemma amazonThumbnails_NoDup imgs : forall images out,
  amazonThumbnails imgs images = inr out ->
  NoDup (urlStrings images) -> NoDup (urlStrings out).
Proof.
  induction imgs as [| img rest IH]; simpl; intros images out H N.
  - inversion H; subst; assumption.
  - destruct (truthy _).
    + apply bindR_inr in H as (s & _ & H).
      eapply IH; [exact H |]. apply pushUnique_NoDup; assumption.
    + eapply IH; eassumption.
Qed.

Lemma amazonHiRes_NoDup initial : forall images,
  NoDup (urlStrings images) -> NoDup (urlStrings (amazonHiRes initial images)).
Proof.
  induction initial as [| img rest IH]; simpl; intros images N; [assumption |].
  destruct (nullish img); [assumption |].
  apply IH.
  destruct (truthy (prop img "hiRes")); simpl; [| assumption].
  destruct (arrIncludes images (prop img "hiRes")) eqn:E; simpl; [assumption |].
  apply NoDup_push; assumption.
Qed.

Lemma amazonScript_NoDup images script :
  NoDup (urlStrings images) -> NoDup (urlStrings (amazonScript images script)).
Proof.
  intro N. unfold amazonScript.
  destruct (includes _ "colorImages"); [| assumption].
  destruct (re_match _ _) as [m |]; [| assumption].
  destruct (nth_error m 1) as [captured |]; [| assumption].
  destruct (JSON_parse _) as [e | imgData]; [assumption |].
  destruct (nullish imgData); [assumption |].
  destruct (truthy (prop imgData "initial")); [| assumption].
  destruct (prop imgData "initial"); try assumption.
  apply amazonHiRes_NoDup; assumption.
Qed.

Lemma amazonImages_NoDup doc out :
  amazonImages doc = inr out -> NoDup (urlStrings out).
Proof.
  unfold amazonImages. intro H.
  apply bindR_inr in H as (main & Em & H).
  apply bindR_inr in H as (thumbs & Et & H).
  inversion H; subst out; clear H.
  assert (Nt : NoDup (urlStrings thumbs)).
  { eapply amazonThumbnails_NoDup; [exact Et |].
    unfold amazonMainImage in Em. destruct (truthy _).
    - apply bindR_inr in Em as (s & _ & Em). inversion Em; subst.
      simpl. constructor; [simpl; tauto | constructor].
    - inversion Em; subst. constructor. }
  revert Nt. generalize thumbs.
  induction (each (query doc "script")) as [| script rest IH]; simpl; intros images N.
  - assumption.
  - apply IH. apply amazonScript_NoDup. assumption.
Qed.

Lemma genericImages_NoDup url imgs : forall images out,
  genericImages url imgs images = inr out ->
  NoDup (urlStrings images) -> NoDup (urlStrings out).
Proof.
  induction imgs as [| img rest IH]; simpl; intros images out H N.
  - inversion H; subst; assumption.
  - destruct (truthy _).
    + apply bindR_inr in H as (s & _ & H).
      destruct (startsWith s "data:").
      * eapply IH; eassumption.
      * apply bindR_inr in H as (absolute & _ & H).
        eapply IH; [exact H |]. apply pushUnique_NoDup; assumption.
    + eapply IH; eassumption.
Qed.

Lemma Forall_pushUnique (P : value -> Prop) images x :
  Forall P images -> P x -> Forall P (pushUnique images x).
Proof.
  intros F Px. unfold pushUnique. destruct (arrIncludes images x); [assumption |].
  apply Forall_app. split; [assumption | constructor; [assumption | constructor]].
Qed.




Lemma rewrite_Absolute s :
  Absolute (VStr (if startsWith s "//" then "https:" +++ s else s)).
Proof.
  destruct (startsWith s "//") eqn:E.
  - exists ("https:" +++ s). split; reflexivity.
  - exists s. split; [reflexivity | assumption].
Qed.





Lemma alibabaImages_Absolute imgs : forall images out,
  alibabaImages imgs images = inr out ->
  Forall Absolute images -> Forall Absolute out.
Proof.
  induction imgs as [| img rest IH]; simpl; intros images out H F.
  - inversion H; subst; assumption.
  - destruct (truthy _ && negb (arrIncludes images _)).
    + apply bindR_inr in H as (s & _ & H).
      eapply IH; [exact H |].
      apply Forall_app. split; [assumption |].
      constructor; [apply rewrite_Absolute | constructor].
    + eapply IH; eassumption.
Qed.



Lemma genericImages_kept url imgs : forall images out,
  genericImages url imgs images = inr out ->
  Forall (KeptSrc url) images -> Forall (KeptSrc url) out.
Proof.
  induction imgs as [| img rest IH]; simpl; intros images out H F.
  - inversion H; subst; assumption.
  - destruct (truthy _).
    + apply bindR_inr in H as (s & _ & H).
      destruct (startsWith s "data:") eqn:D.
      * eapply IH; eassumption.
      * apply bindR_inr in H as (absolute & Ea & H).
        eapply IH; [exact H |].
        apply Forall_pushUnique; [assumption |].
        exists s. split; [assumption |].
        destruct (startsWith s "http") eqn:P.
        -- left. inversion Ea; subst. split; reflexivity.
        -- right. split; [reflexivity |]. exists absolute. split; [assumption | reflexivity].
    + eapply IH; eassumption.
Qed.

Lemma Forall_firstn (P : value -> Prop) n l :
  Forall P l -> Forall P (firstn n l).
Proof.
  intro F. revert n.
  induction F as [| x l Px F IH]; intros [| n]; simpl; constructor; auto.
Qed.

(* ------------------------------------------------------------------ *)
(** *** What a successful extractor run returns *)

Lemma extract_inr platform url w r w1 :
  extract platform url w = (inr r, w1) ->
  prop r "isDemo" = VUndef /\
  prop r "platform" = VStr (extractorLabel platform) /\
  ( (platform = "aliexpress" /\
     exists w', aliTryAPI (aliProductId url) w = (inr (Some r), w'))
    \/
    (prop r "url" = VStr url /\
     exists imgs,
       prop r "images" = VArr imgs /\
       List.length imgs <= 15 /\
       (platform = "alibaba" \/ NoDup (urlStrings imgs)) /\
       (platform = "alibaba" -> Forall Absolute imgs) /\
       (extractorLabel platform = "generic" -> Forall (KeptSrc url) imgs)) ).
Proof.
  unfold extract, extractorLabel.
  destruct (String.eqb_spec platform "aliexpress") as [Pa | Pa];
    [| destruct (String.eqb_spec platform "amazon") as [Pz | Pz];
       [| destruct (String.eqb_spec platform "alibaba") as [Pb | Pb]]];
    intro H.
  - apply scrapeAliExpress_inr in H as [(w' & E) | H].
    + pose proof (aliTryAPI_some _ _ _ _ E) as A.
      apply scrapeAliExpressAPI_inr in A as (item & price & orig & t & ->).
      split; [reflexivity |]. split; [reflexivity |].
      left. split; [assumption |]. exists w'. assumption.
    + destruct H as (w' & doc & pageData & title & price & orig & images & descr
                     & variants & specs & t & E & I & ->).
      split; [reflexivity |]. split; [reflexivity |].
      right. split; [reflexivity |].
      exists (slice0 15 images). split; [reflexivity |].
      split; [apply firstn_le_length |].
      split; [right; apply NoDup_urlStrings_firstn;
              eapply aliImages_NoDup; eassumption |].
      split; intro C; subst; discriminate.
  - apply scrapeAmazon_inr in H
      as (doc & images & title & price & descr & bullets & variants & rating
          & reviews & t & I & ->).
    split; [reflexivity |]. split; [reflexivity |].
    right. split; [reflexivity |].
    exists (slice0 15 images). split; [reflexivity |].
    split; [apply firstn_le_length |].
    split; [right; apply NoDup_urlStrings_firstn;
            eapply amazonImages_NoDup; eassumption |].
    split; intro C; subst; discriminate.
  - apply scrapeAlibaba_inr in H
      as (doc & images & title & price & descr & moq & t & I & ->).
    split; [reflexivity |]. split; [reflexivity |].
    right. split; [reflexivity |].
    exists (slice0 15 images). split; [reflexivity |].
    split; [apply firstn_le_length |].
    split; [left; assumption |].
    split.
    + intros _. apply Forall_firstn.
      eapply alibabaImages_Absolute; [eassumption | constructor].
    + intro C. discriminate.
  - apply scrapeGeneric_inr in H
      as (doc & images & title & price & descr & t & I & ->).
    split; [reflexivity |]. split; [reflexivity |].
    right. split; [reflexivity |].
    exists (slice0 15 images). split; [reflexivity |].
    split; [apply firstn_le_length |].
    split; [right; apply NoDup_urlStrings_firstn;
            eapply genericImages_NoDup; [eassumption | constructor] |].
    split.
    + intro C. contradiction.
    + intros _. apply Forall_firstn.
      eapply genericImages_kept; [eassumption | constructor].
Qed.

(* ------------------------------------------------------------------ *)
(** *** Claims about the returned record *)


(** C4 (amended). When the selected extractor returns a candidate on which
    no criterion of the check fires, [scrape] returns that candidate itself,
    in the world the extractor left: no key is changed or added, [scrapedAt]
    is the value the extractor wrote, and the key [isDemo] is absent. *)
Theorem scrape_accepts_candidate :
  forall (url : string) (w w1 : World) (candidate : value),
    extract (detectPlatform url) url w = (inr candidate, w1) ->
    invalidData candidate = inr false ->
    scrape url w = (inr candidate, w1) /\
    prop candidate "isDemo" = VUndef.
Proof.
  intros url w w1 candidate E V. split.
  - rewrite scrape_unfold, E, V. reflexivity.
  - apply extract_inr in E. tauto.
Qed.

(** C5 (amended). The record [scrape] returns is either the demo product,
    whose [platform] is the value [detectPlatform] gave for the URL, or the
    candidate of the extractor that ran, whose [platform] is the constant of
    that extractor: the detected value for aliexpress, amazon, alibaba and
    generic, and "generic" for a URL detected as 1688 or cj. *)
Theorem scrape_platform : forall (url : string) (w : World),
  exists r w',
    scrape url w = (inr r, w') /\
    ( (prop r "isDemo" = VBool true /\
       prop r "platform" = VStr (detectPlatform url))
      \/
      (prop r "isDemo" = VUndef /\
       prop r "platform" = VStr (extractorLabel (detectPlatform url))) ) /\
    ( extractorLabel (detectPlatform url) = detectPlatform url
      \/
      (In (detectPlatform url) ["1688"; "cj"] /\
       extractorLabel (detectPlatform url) = "generic") ).
Proof.
  intros url w.
  assert (L : extractorLabel (detectPlatform url) = detectPlatform url \/
              In (detectPlatform url) ["1688"; "cj"] /\
              extractorLabel (detectPlatform url) = "generic").
  { unfold detectPlatform.
    repeat match goal with
           | |- context [if includes ?a ?b then _ else _] => destruct (includes a b)
           end; simpl; auto. }
  destruct (scrape_outcome url w) as [(r & w' & S & E & V) | (t & w' & S)].
  - exists r, w'. split; [exact S |]. split; [| exact L].
    right. apply extract_inr in E. tauto.
  - eexists. exists w'. split; [exact S |]. split; [| exact L].
    left. split; reflexivity.
Qed.

(** Outside the AliExpress mobile-API path the returned record carries the
    input URL in [url]. *)
Lemma scrape_url_outside_api (url : string) (w : World) :
  detectPlatform url <> "aliexpress" \/
  fst (aliTryAPI (aliProductId url) w) = inr None ->
  exists r w', scrape url w = (inr r, w') /\ prop r "url" = VStr url.
Proof.
  intro Hpath.
  destruct (scrape_outcome url w) as [(r & w' & S & E & V) | (t & w' & S)].
  - apply extract_inr in E as (_ & _ & [(Pa & w2 & A) | (U & _)]).
    + exfalso. destruct Hpath as [N | N]; [apply N; assumption |].
      rewrite A in N. discriminate.
    + exists r, w'. auto.
  - eexists. exists w'. split; [exact S | reflexivity].
Qed.

Lemma lowerUnit_idem c : lowerUnit (lowerUnit c) = lowerUnit c.
Proof.
  destruct c as [[] [] [] [] [] [] [] []]; reflexivity.
Qed.

Lemma toLowerCase_idem s : toLowerCase (toLowerCase s) = toLowerCase s.
Proof.
  induction s as [| c s IH]; simpl; [reflexivity |].
  rewrite lowerUnit_idem, IH. reflexivity.
Qed.

(** C6 (amended). [detectPlatform] is a total function of the URL into the
    six identifiers aliexpress, amazon, alibaba, 1688, cj and generic.  It is
    the first match of the ordered fragment table on the lower-cased URL, so
    two URLs that differ only in letter case get the same platform, and a URL
    in which no fragment of the table occurs gets generic. *)
Theorem detectPlatform_table : forall (url : string),
  detectPlatform url = firstMatch platformTable (toLowerCase url) /\
  In (detectPlatform url)
     ["aliexpress"; "amazon"; "alibaba"; "1688"; "cj"; "generic"] /\
  detectPlatform (toLowerCase url) = detectPlatform url /\
  (forall url' : string,
     toLowerCase url' = toLowerCase url ->
     detectPlatform url' = detectPlatform url) /\
  (Forall (fun entry => includes (toLowerCase url) (fst entry) = false)
          platformTable ->
   detectPlatform url = "generic").
Proof.
  intro url. split; [reflexivity |]. split; [| split; [| split]].
  - unfold detectPlatform.
    repeat match goal with
           | |- context [if includes ?a ?b then _ else _] => destruct (includes a b)
           end; simpl; auto 10.
  - unfold detectPlatform. rewrite toLowerCase_idem. reflexivity.
  - intros url' E. unfold detectPlatform. rewrite E. reflexivity.
  - intro F. unfold detectPlatform. unfold platformTable in F.
    repeat match goal with
           | H : Forall _ (_ :: _) |- _ => inversion H; subst; clear H
           end.
    cbn [fst] in *.
    repeat match goal with
           | H : includes _ _ = false |- _ => rewrite H; clear H
           end.
    reflexivity.
Qed.

Lemma demoImages_facts :
  List.length demoImages <= 15 /\
  NoDup (urlStrings demoImages) /\
  Forall (fun s => startsWith s "data:" = false) (urlStrings demoImages) /\
  Forall Absolute demoImages.
Proof.
  split; [simpl; lia |]. split; [| split].
  - simpl. repeat constructor; simpl; intuition discriminate.
  - simpl. repeat constructor.
  - unfold demoImages. repeat constructor; eexists; split; reflexivity.
Qed.

(** C8 (amended). [scrape] returns a record, and unless that record is the
    one the AliExpress mobile API supplied, its [images] is an array of at
    most 15 entries.  No URL occurs twice in it when the record is the demo
    product or comes from the AliExpress page, Amazon or generic extractor.
    The demo product holds its four fixed URLs, none a data URI; every entry
    from the generic extractor comes from a [src] that does not start with
    "data:". *)
Theorem scrape_images_bounds : forall (url : string) (w : World),
  exists r w',
    scrape url w = (inr r, w') /\
    (detectPlatform url <> "aliexpress" \/
     fst (aliTryAPI (aliProductId url) w) <> inr (Some r) ->
     exists imgs,
       prop r "images" = VArr imgs /\
       List.length imgs <= 15 /\
       ( (detectPlatform url = "alibaba" /\ prop r "isDemo" = VUndef) \/
         NoDup (urlStrings imgs) ) /\
       ( (prop r "isDemo" = VBool true /\ imgs = demoImages /\
          Forall (fun s => startsWith s "data:" = false) (urlStrings imgs))
         \/
         (prop r "isDemo" = VUndef /\
          (extractorLabel (detectPlatform url) = "generic" ->
           Forall (KeptSrc url) imgs)) )).
Proof.
  intros url w.
  destruct demoImages_facts as (Dl & Dn & Dd & _).
  destruct (scrape_outcome url w) as [(r & w' & S & E & V) | (t & w' & S)].
  - exists r, w'. split; [exact S |]. intro Hpath.
    apply extract_inr in E as (Hdemo & _ & [(Pa & w2 & A) | (_ & imgs & Hi & Hl & Hn & _ & Hk)]).
    + exfalso. destruct Hpath as [N | N]; [apply N; assumption |].
      apply N. rewrite A. reflexivity.
    + exists imgs. split; [exact Hi |].
      split; [exact Hl |]. split.
      * destruct Hn as [Pb | Hn]; [left; split; assumption | right; exact Hn].
      * right. split; assumption.
  - eexists. exists w'. split; [exact S |]. intros _. exists demoImages.
    split; [reflexivity |]. split; [exact Dl |]. split; [right; exact Dn |].
    left. split; [reflexivity |]. split; [reflexivity | exact Dd].
Qed.












(* ------------------------------------------------------------------ *)
(** *** Further properties of [scrape] *)

Lemma invalidData_false res :
  invalidData res = inr false ->
  truthy (prop res "title") = true /\
  jsIncludes (prop res "title") "404" = inr false /\
  5 <= jsLength (prop res "title") /\
  strictEqZero (prop res "price") = false.
Proof.
  unfold invalidData.
  destruct (truthy (prop res "title")); simpl; [| discriminate].
  destruct (jsIncludes (prop res "title") "404") as [e | [|]]; simpl;
    try discriminate.
  destruct (Nat.ltb (jsLength (prop res "title")) 5) eqn:L; [discriminate |].
  intro H. apply Nat.ltb_ge in L.
  split; [reflexivity |]. split; [reflexivity |]. split; [exact L |].
  unfold Ok in H. congruence.
Qed.

(** X1. Whatever the URL and whatever the outside answers, the record
    [scrape] returns passes the check of [scrape] itself: its title is
    present, has no "404" and at least 5 characters (or entries), and its
    price is not 0. *)
Theorem scrape_output_valid : forall (url : string) (w : World),
  exists r w',
    scrape url w = (inr r, w') /\
    invalidData r = inr false /\
    truthy (prop r "title") = true /\
    jsIncludes (prop r "title") "404" = inr false /\
    5 <= jsLength (prop r "title") /\
    strictEqZero (prop r "price") = false.
Proof.
  intros url w.
  destruct (scrape_outcome url w) as [(r & w' & S & E & V) | (t & w' & S)].
  - exists r, w'. split; [exact S |]. split; [exact V |].
    apply invalidData_false. exact V.
  - eexists. exists w'. split; [exact S |]. split; [reflexivity |].
    apply invalidData_false. reflexivity.
Qed.

(** X2. On every path the returned record has [currency] "USD", a string in
    [scrapedAt] and a string in [platform]. *)
Theorem scrape_record_schema : forall (url : string) (w : World),
  exists r w' t p,
    scrape url w = (inr r, w') /\
    prop r "currency" = VStr "USD" /\
    prop r "scrapedAt" = VStr t /\
    prop r "platform" = VStr p.
Proof.
  intros url w.
  destruct (scrape_outcome url w) as [(r & w' & S & E & V) | (t & w' & S)].
  - exists r, w'. unfold extract in E.
    destruct (String.eqb (detectPlatform url) "aliexpress");
      [| destruct (String.eqb (detectPlatform url) "amazon");
         [| destruct (String.eqb (detectPlatform url) "alibaba")]].
    + apply scrapeAliExpress_inr in E as [(w1 & A) | H].
      * apply aliTryAPI_some in A.
        apply scrapeAliExpressAPI_inr in A as (item & price & orig & t & ->).
        exists t, "aliexpress". split; [exact S |]. split; [reflexivity |]. split; reflexivity.
      * destruct H as (w1 & doc & pageData & title & price & orig & images & descr
                       & variants & specs & t & _ & _ & ->).
        exists t, "aliexpress". split; [exact S |]. split; [reflexivity |]. split; reflexivity.
    + apply scrapeAmazon_inr in E
        as (doc & images & title & price & descr & bullets & variants & rating
            & reviews & t & _ & ->).
      exists t, "amazon". split; [exact S |]. split; [reflexivity |]. split; reflexivity.
    + apply scrapeAlibaba_inr in E
        as (doc & images & title & price & descr & moq & t & _ & ->).
      exists t, "alibaba". split; [exact S |]. split; [reflexivity |]. split; reflexivity.
    + apply scrapeGeneric_inr in E
        as (doc & images & title & price & descr & t & _ & ->).
      exists t, "generic". split; [exact S |]. split; [reflexivity |]. split; reflexivity.
  - eexists. exists w', t, (detectPlatform url).
    split; [exact S |]. split; [reflexivity |]. split; reflexivity.
Qed.

Lemma numOrZero_number n :
  exists m, numOrZero n = VNum m /\ isNaN m = false /\ m <> S754_zero true.
Proof.
  unfold numOrZero. destruct n as [[|] | | |]; simpl; eexists;
    (split; [reflexivity | split; [reflexivity | discriminate]]).
Qed.

(** The price a page extractor writes is [parseFloat(...) || 0]. *)
Lemma extract_price platform url w r w1 :
  extract platform url w = (inr r, w1) ->
  (platform = "aliexpress" /\
   exists w', aliTryAPI (aliProductId url) w = (inr (Some r), w'))
  \/ exists n, prop r "price" = numOrZero n.
Proof.
  unfold extract.
  destruct (String.eqb_spec platform "aliexpress") as [Pa | Pa];
    [| destruct (String.eqb platform "amazon");
       [| destruct (String.eqb platform "alibaba")]];
    intro H.
  - unfold scrapeAliExpress in H.
    apply bind_inr in H as (early & w2 & E & H).
    destruct early as [record |].
    + apply ret_inr in H as (-> & ->). left. split; [assumption |]. eauto.
    + run H. subst r. right. eexists. reflexivity.
  - unfold scrapeAmazon in H. run H. subst r. right. eexists. reflexivity.
  - unfold scrapeAlibaba in H. run H. subst r. right. eexists. reflexivity.
  - unfold scrapeGeneric in H. run H. subst r. right. eexists. reflexivity.
Qed.

(** X3. [scrape] returns a record, and unless that record is the one the
    AliExpress mobile API supplied, its price is a number that is neither
    NaN nor zero (of either sign). *)
Theorem scrape_price_number : forall (url : string) (w : World),
  exists r w',
    scrape url w = (inr r, w') /\
    (detectPlatform url <> "aliexpress" \/
     fst (aliTryAPI (aliProductId url) w) <> inr (Some r) ->
     exists m,
       prop r "price" = VNum m /\
       isNaN m = false /\
       isZero m = false).
Proof.
  intros url w.
  destruct (scrape_outcome url w) as [(r & w' & S & E & V) | (t & w' & S)].
  - exists r, w'. split; [exact S |]. intro Hpath.
    apply invalidData_false in V as (_ & _ & _ & Z).
    apply extract_price in E as [(Pa & w2 & A) | (n & P)].
    + exfalso. destruct Hpath as [N | N]; [apply N; assumption |].
      apply N. rewrite A. reflexivity.
    + destruct (numOrZero_number n) as (m & Em & Nn & _).
      exists m. rewrite P, Em in *. simpl in Z. auto.
  - eexists. exists w'. split; [exact S |]. intros _. exists num_49_99.
    repeat split; reflexivity.
Qed.

(* ------------------------------------------------------------------ *)
(** *** Further properties of the extractors *)

(** X4. The attempt on the AliExpress mobile API never throws.  It yields
    a record only when there is a product id and the API record has a
    title; without a product id it leaves the world as it was (no request is
    sent), and after a failed or title-less attempt the world is the one the
    API call left. *)
Theorem aliTryAPI_total : forall (productId : value) (w : World),
  exists o w',
    aliTryAPI productId w = (inr o, w') /\
    match o with
    | Some r =>
        truthy productId = true /\
        scrapeAliExpressAPI productId w = (inr r, w') /\
        truthy (prop r "title") = true
    | None =>
        (truthy productId = false /\ w' = w) \/
        (truthy productId = true /\
         w' = snd (scrapeAliExpressAPI productId w))
    end.
Proof.
  intros productId w. unfold aliTryAPI.
  destruct (truthy productId) eqn:T.
  - unfold tryCatch, bind.
    destruct (scrapeAliExpressAPI productId w) as [[e | apiData] w1] eqn:A.
    + exists None, w1. split; [reflexivity |]. right. auto.
    + destruct (truthy apiData && truthy (prop apiData "title")) eqn:C.
      * exists (Some apiData), w1. split; [reflexivity |].
        apply andb_true_iff in C as [_ C]. auto.
      * exists None, w1. split; [reflexivity |]. right. auto.
  - exists None, w. split; [reflexivity |]. left. auto.
Qed.

Lemma aliTryAPI_some_title productId w r w' :
  aliTryAPI productId w = (inr (Some r), w') ->
  truthy (prop r "title") = true.
Proof.
  unfold aliTryAPI. destruct (truthy productId).
  - unfold tryCatch, bind.
    destruct (scrapeAliExpressAPI productId w) as [[e | apiData] w1].
    + unfold ret, Ok. discriminate.
    + destruct (truthy apiData && truthy (prop apiData "title")) eqn:C;
        unfold ret, Ok; intro H; [| discriminate H].
      apply andb_true_iff in C as [_ C]. congruence.
  - unfold ret, Ok. discriminate.
Qed.

Lemma orElse_truthy_r a b : truthy b = true -> truthy (a ||| b) = true.
Proof.
  intro T. unfold orElse. destruct (truthy a) eqn:A; assumption.
Qed.

(** X5. A record returned by the AliExpress extractor always has a truthy
    title: the API record is used only when it has one, and the page record
    takes "Product" when the page yields none. *)
Theorem scrapeAliExpress_title : forall (url : string) (w w' : World) (r : value),
  scrapeAliExpress url w = (inr r, w') ->
  truthy (prop r "title") = true.
Proof.
  intros url w w' r H. unfold scrapeAliExpress in H.
  apply bind_inr in H as (early & w1 & E & H).
  destruct early as [record |].
  - apply ret_inr in H as (-> & ->).
    eapply aliTryAPI_some_title. exact E.
  - run H. subst r. apply orElse_truthy_r. reflexivity.
Qed.

Lemma pushUnique_extends images x :
  exists more, pushUnique images x = images ++ more.
Proof.
  unfold pushUnique. destruct (arrIncludes images x).
  - exists []. rewrite app_nil_r. reflexivity.
  - exists [x]. reflexivity.
Qed.

Lemma amazonThumbnails_extends imgs : forall images out,
  amazonThumbnails imgs images = inr out ->
  exists more, out = images ++ more.
Proof.
  induction imgs as [| img rest IH]; simpl; intros images out H.
  - inversion H; subst. exists []. rewrite app_nil_r. reflexivity.
  - destruct (truthy _).
    + apply bindR_inr in H as (s & _ & H).
      apply IH in H as (more & ->).
      destruct (pushUnique_extends images (VStr (re_replace sizeSuffix s ".")))
        as (m1 & ->).
      exists (m1 ++ more). rewrite app_assoc. reflexivity.
    + apply IH. assumption.
Qed.

Lemma amazonHiRes_extends initial : forall images,
  exists more, amazonHiRes initial images = images ++ more.
Proof.
  induction initial as [| img rest IH]; simpl; intro images.
  - exists []. rewrite app_nil_r. reflexivity.
  - destruct (nullish img).
    + exists []. rewrite app_nil_r. reflexivity.
    + destruct (truthy (prop img "hiRes") && negb (arrIncludes images (prop img "hiRes"))).
      * destruct (IH (images ++ [prop img "hiRes"])) as (more & ->).
        exists ([prop img "hiRes"] ++ more). rewrite app_assoc. reflexivity.
      * apply IH.
Qed.

Lemma amazonScript_extends images script :
  exists more, amazonScript images script = images ++ more.
Proof.
  assert (Z : exists more, images = images ++ more).
  { exists []. rewrite app_nil_r. reflexivity. }
  unfold amazonScript.
  destruct (includes _ "colorImages"); [| exact Z].
  destruct (re_match _ _) as [m |]; [| exact Z].
  destruct (nth_error m 1) as [captured |]; [| exact Z].
  destruct (JSON_parse _) as [e | imgData]; [exact Z |].
  destruct (nullish imgData); [exact Z |].
  destruct (truthy (prop imgData "initial")); [| exact Z].
  destruct (prop imgData "initial"); try exact Z.
  apply amazonHiRes_extends.
Qed.

Lemma amazonScripts_extends scripts : forall images,
  exists more, fold_left amazonScript scripts images = images ++ more.
Proof.
  induction scripts as [| script rest IH]; simpl; intro images.
  - exists []. rewrite app_nil_r. reflexivity.
  - destruct (amazonScript_extends images script) as (m1 & ->).
    destruct (IH (images ++ m1)) as (m2 & ->).
    exists (m1 ++ m2). rewrite app_assoc. reflexivity.
Qed.

(** X6. In the images list of the Amazon extractor the main image, when the
    page has one, comes first, also after the cut to 15 entries: the loops
    over the thumbnails and over the colorImages scripts only append, and a
    script whose data is malformed loses nothing that was collected. *)
Theorem amazonImages_main_first : forall (doc : Doc) (out : list value),
  amazonImages doc = inr out ->
  exists main more,
    amazonMainImage doc = inr main /\
    List.length main <= 1 /\
    out = main ++ more /\
    slice0 15 out = main ++ slice0 (15 - List.length main) more.
Proof.
  intros doc out H. unfold amazonImages in H.
  apply bindR_inr in H as (main & Em & H).
  apply bindR_inr in H as (thumbs & Et & H).
  apply amazonThumbnails_extends in Et as (m1 & ->).
  destruct (amazonScripts_extends (each (query doc "script")) (main ++ m1))
    as (m2 & E2).
  unfold Ok in H. rewrite E2 in H. inversion H; subst out; clear H.
  assert (L : List.length main <= 1).
  { unfold amazonMainImage in Em. destruct (truthy _).
    - apply bindR_inr in Em as (s & _ & Em). inversion Em; subst. simpl. lia.
    - inversion Em; subst. simpl. lia. }
  exists main, (m1 ++ m2). split; [exact Em |]. split; [exact L |].
  rewrite <- app_assoc. split; [reflexivity |].
  unfold slice0. rewrite firstn_app. f_equal.
  apply firstn_all2. lia.
Qed.

Lemma extract_generic platform url :
  extractorLabel platform = "generic" -> extract platform url = scrapeGeneric url.
Proof.
  unfold extractorLabel, extract.
  destruct (String.eqb platform "aliexpress"); [discriminate |].
  destruct (String.eqb platform "amazon"); [discriminate |].
  destruct (String.eqb platform "alibaba"); [discriminate | reflexivity].
Qed.

(** A rejected outcome of the extractor run ends in the demo record. *)
Lemma scrape_demo_of_rejected url w outcome w1 :
  extract (detectPlatform url) url w = (outcome, w1) ->
  Rejected outcome ->
  exists t w',
    scrape url w = (inr (demoRecord url (detectPlatform url) t), w').
Proof.
  intros E R. rewrite scrape_unfold, E.
  destruct outcome as [e | res].
  - rewrite getDemoProduct_eq. eauto.
  - pose proof (invalidData_rejected res R) as N.
    destruct (invalidData res) as [e | [|]].
    + rewrite getDemoProduct_eq. eauto.
    + rewrite getDemoProduct_eq. eauto.
    + exfalso. apply N. reflexivity.
Qed.

Lemma numOrZero_falsy n :
  truthy (VNum n) = false -> numOrZero n = VNum zero.
Proof.
  unfold numOrZero. simpl. intro T. apply negb_false_iff in T.
  rewrite T. reflexivity.
Qed.

(** X7. A page read by the generic extractor on which no price text is
    found gets the price string "0.00"; as [parseFloat] reads that as 0,
    [scrape] answers with the demo product, whatever title and images the
    page has. *)
Theorem generic_without_price_demo :
  forall (url : string) (w w1 : World) (resp : value) (doc : Doc),
    extractorLabel (detectPlatform url) = "generic" ->
    axios_get (VStr url) genericConfig w = (inr resp, w1) ->
    cheerio_load resp = inr doc ->
    genericPrice doc = VStr "0.00" ->
    truthy (VNum (parseFloat (VStr "0.00"))) = false ->
    exists r w',
      scrape url w = (inr r, w') /\
      prop r "isDemo" = VBool true /\
      prop r "platform" = VStr (detectPlatform url).
Proof.
  intros url w w1 resp doc G A C P Z.
  assert (R : exists outcome w2,
             extract (detectPlatform url) url w = (outcome, w2) /\
             Rejected outcome).
  { rewrite (extract_generic _ _ G). unfold scrapeGeneric, bind at 1.
    rewrite A. unfold bind at 1, liftR at 1. rewrite C.
    unfold bind at 1, liftR at 1.
    destruct (genericImages url (each (query doc genericImageSelector)) [])
      as [e | images].
    - eexists. eexists. split; [reflexivity | constructor].
    - unfold bind at 1, liftR at 1. rewrite P. simpl asString. unfold Ok.
      unfold bind. rewrite now_total. unfold ret, Ok.
      eexists. eexists. split; [reflexivity |].
      apply RejectedNoPrice.
      change (strictEqZero (numOrZero (parseFloat (VStr "0.00"))) = true).
      rewrite (numOrZero_falsy _ Z). reflexivity. }
  destruct R as (outcome & w2 & E & R).
  destruct (scrape_demo_of_rejected url w outcome w2 E R) as (t & w' & S).
  eexists. exists w'. split; [exact S |]. split; reflexivity.
Qed.

Lemma prefix_app s t : String.prefix s (s +++ t) = true.
Proof.
  induction s as [| c s IH]; simpl.
  - destruct t; reflexivity.
  - destruct (ascii_dec c c) as [_ | N]; [exact IH | exfalso; apply N; reflexivity].
Qed.

Lemma includes_prefix s sub :
  String.prefix sub s = true -> includes s sub = true.
Proof.
  destruct s; simpl; intros ->; reflexivity.
Qed.

Lemma includes_app pre sub post : includes (pre +++ sub +++ post) sub = true.
Proof.
  induction pre as [| c pre IH]; simpl.
  - apply includes_prefix, prefix_app.
  - rewrite IH. apply orb_true_r.
Qed.

Lemma toLowerCase_app a b :
  toLowerCase (a +++ b) = toLowerCase a +++ toLowerCase b.
Proof.
  induction a as [| c a IH]; simpl; [reflexivity |]. rewrite IH. reflexivity.
Qed.

(** X8. Detection looks for the fragment anywhere in the URL, not in the
    host name, and aliexpress comes first: a URL in which "aliexpress."
    occurs in any letter case, at any place, is detected as aliexpress
    whatever stands before and after it. *)
Theorem detectPlatform_occurrence : forall (pre fragment post : string),
  toLowerCase fragment = "aliexpress." ->
  detectPlatform (pre +++ fragment +++ post) = "aliexpress".
Proof.
  intros pre fragment post L. unfold detectPlatform.
  rewrite !toLowerCase_app, L, includes_app. reflexivity.
Qed.

(* ------------------------------------------------------------------ *)
(** *** The route POST /api/scrape *)

(** X9. A request whose body has no non-empty string under [url] is
    answered without any request being sent and without the clock being
    read: with status 400 when [url] is missing or falsy, with status 500
    when the body itself is missing or [url] is a truthy value that is not a
    string; the answer is an object with the single key [error]. *)
Theorem apiScrape_bad_request : forall (body : value) (w : World),
  isNonEmptyString (optProp body "url") = false ->
  exists resp msg,
    apiScrape body w = (inr resp, w) /\
    status resp = (if nullish body then 500
                   else if truthy (prop body "url") then 500 else 400) /\
    json resp = VObj [("error", VStr msg)].
Proof.
  intros body w N. unfold apiScrape, tryCatch, bind at 1, liftR at 1, destructure.
  unfold optProp in N.
  destruct (nullish body) eqn:B.
  - simpl. eexists. eexists. split; [reflexivity |]. split; reflexivity.
  - unfold Ok. destruct (truthy (prop body "url")) eqn:T; simpl.
    + destruct (prop body "url") as [| | b | n | s | l | f] eqn:U;
        try discriminate T;
        try (simpl; eexists; eexists; split; [reflexivity |]; split; reflexivity).
      simpl in T, N. rewrite N in T. discriminate T.
    + eexists. eexists. split; [reflexivity |]. split; reflexivity.
Qed.

(** X10. A request whose body has a non-empty string under [url] is always
    answered with status 200 and [{success: true, data}], where [data] is
    the record [scrape] returns for that string, a record that passes the
    check of [scrape]; the handler is left in the world [scrape] left. *)
Theorem apiScrape_ok : forall (body : value) (s : string) (w : World),
  prop body "url" = VStr s ->
  s <> "" ->
  exists r w',
    scrape s w = (inr r, w') /\
    invalidData r = inr false /\
    apiScrape body w =
    (inr (mkResponse 200 (VObj [("success", VBool true); ("data", r)])), w').
Proof.
  intros body s w U Ns.
  assert (B : nullish body = false).
  { destruct body; try reflexivity; discriminate U. }
  assert (T : truthy (VStr s) = true).
  { simpl. destruct (String.eqb_spec s ""); [contradiction | reflexivity]. }
  assert (V : exists r w', scrape s w = (inr r, w') /\ invalidData r = inr false).
  { destruct (scrape_outcome s w) as [(r & w' & S & E & V) | (t & w' & S)].
    - exists r, w'. auto.
    - eexists. exists w'. split; [exact S | reflexivity]. }
  destruct V as (r & w' & S & V).
  exists r, w'. split; [exact S |]. split; [exact V |].
  unfold apiScrape, tryCatch, bind at 1, liftR at 1, destructure.
  rewrite B. unfold Ok. rewrite U, T. cbn [negb].
  unfold bind, scrapeValue. rewrite S. reflexivity.
Qed.

(** X11. The record of [scrapeFallback] echoes the URL and the platform it
    is given, is marked as demo, and passes the check of [scrape]; building
    it only reads the clock. *)
Theorem scrapeFallback_valid : forall (url platform : string) (w : World),
  exists r,
    scrapeFallback url platform w = (inr r, snd (Date_now_toISOString w)) /\
    prop r "url" = VStr url /\
    prop r "platform" = VStr platform /\
    prop r "scrapedAt" = VStr (fst (Date_now_toISOString w)) /\
    prop r "isDemo" = VBool true /\
    invalidData r = inr false.
Proof.
  intros url platform w. unfold scrapeFallback, bind.
  rewrite now_total. unfold ret, Ok.
  eexists. split; [reflexivity |]. repeat split; reflexivity.
Qed.

(* ------------------------------------------------------------------ *)
(** *** Malformed page data, price strings and titles *)

Lemma mapR_throws {A B} (f : A -> result B) l a e :
  In a l -> f a = inl e -> exists e', mapR f l = inl e'.
Proof.
  induction l as [| x rest IH]; simpl; intros I F; [contradiction |].
  destruct I as [-> | I].
  - rewrite F. simpl. eauto.
  - destruct (f x) as [e1 | b]; simpl; [eauto |].
    destruct (IH I F) as (e' & ->). simpl. eauto.
Qed.

Lemma aliVariants_null pageData l v :
  optProp (optProp pageData "skuModule") "productSKUPropertyList" = VArr l ->
  In v l -> nullish v = true ->
  exists e, aliVariants pageData = inl e.
Proof.
  intros L I N. unfold aliVariants. rewrite L. simpl.
  assert (F : exists e, aliVariant v = inl e).
  { unfold aliVariant, getProp. rewrite N. simpl. eauto. }
  destruct F as (e & F).
  destruct (mapR_throws aliVariant l v e I F) as (e' & ->). eauto.
Qed.

(** X12. When the data embedded in an AliExpress page lists a null entry
    among its SKU properties, the page extractor throws while it builds the
    variants, whatever else the page holds, and [scrape] answers with the
    demo product. *)
Theorem aliexpress_null_variant_demo :
  forall (url : string) (w w1 w2 : World) (resp : value) (doc : Doc)
         (l : list value) (v : value),
    detectPlatform url = "aliexpress" ->
    aliTryAPI (aliProductId url) w = (inr None, w1) ->
    axios_get (VStr url) aliConfig w1 = (inr resp, w2) ->
    cheerio_load resp = inr doc ->
    optProp (optProp (aliPageData doc) "skuModule") "productSKUPropertyList" = VArr l ->
    In v l -> nullish v = true ->
    exists r w',
      scrape url w = (inr r, w') /\
      prop r "isDemo" = VBool true /\
      prop r "title" = VStr "Premium Wireless Bluetooth Earbuds Pro".
Proof.
  intros url w w1 w2 resp doc l v P T A C L I N.
  destruct (aliVariants_null _ _ _ L I N) as (ev & V).
  assert (R : exists e w3, extract (detectPlatform url) url w = (inl e, w3)).
  { rewrite P. unfold extract. rewrite String.eqb_refl.
    unfold scrapeAliExpress, bind at 1. rewrite T.
    unfold bind at 1. rewrite A.
    unfold bind at 1, liftR at 1. rewrite C.
    unfold bind at 1, liftR at 1.
    destruct (aliPrice (aliPageData doc) resp) as [e | prices]; [eauto |].
    unfold bind at 1, liftR at 1.
    destruct (aliImages doc (aliPageData doc)) as [e | images]; [eauto |].
    unfold bind at 1.
    destruct (aliDescription (aliPageData doc) w2) as [[e | description] w3];
      [eauto |].
    unfold bind at 1, liftR at 1. rewrite V. eauto. }
  destruct R as (e & w3 & E).
  destruct (scrape_demo_of_rejected url w (inl e) w3 E (RejectedError e))
    as (t & w' & S).
  eexists. exists w'. split; [exact S |]. split; reflexivity.
Qed.

Lemma substring_all s : substring 0 (String.length s) s = s.
Proof.
  induction s as [| c s IH]; simpl; [reflexivity |]. rewrite IH. reflexivity.
Qed.

Lemma prefix_comma c s :
  String.prefix "," (String c s) = if ascii_dec "," c then true else false.
Proof.
  change (String.prefix "," (String c s))
    with (match ascii_dec "," c with
          | left _ => String.prefix "" s
          | right _ => false
          end).
  destruct (ascii_dec "," c); [destruct s |]; reflexivity.
Qed.

Lemma replaceFirst_comma a b :
  includes a "," = false ->
  replaceFirst "," "" (a +++ "," +++ b) = a +++ b.
Proof.
  induction a as [| c a IH]; intro H.
  - simpl. rewrite Nat.sub_0_r.
    replace (String.prefix "" b) with true by (destruct b; reflexivity).
    apply substring_all.
  - change (includes (String c a) ",")
      with (String.prefix "," (String c a) || includes a ",") in H.
    apply orb_false_elim in H as [Hc Ha].
    change (String c a +++ "," +++ b) with (String c (a +++ "," +++ b)).
    change (replaceFirst "," "" (String c (a +++ "," +++ b)))
      with (if String.prefix "," (String c (a +++ "," +++ b))
            then "" +++ substring (String.length ",")
                          (String.length (String c (a +++ "," +++ b)) - String.length ",")
                          (String c (a +++ "," +++ b))
            else String c (replaceFirst "," "" (a +++ "," +++ b))).
    rewrite prefix_comma in Hc. rewrite prefix_comma.
    destruct (ascii_dec "," c); [discriminate Hc |].
    rewrite (IH Ha). reflexivity.
Qed.

(** X13. The generic and the Alibaba extractor remove only the first comma
    of the price string before [parseFloat] reads it: for a price string
    [a,b] with no comma in [a], the price of the record is
    [parseFloat(ab) || 0], with every further comma of [b] still in place. *)
Theorem price_first_comma_only :
  (forall (url : string) (w w' : World) (r : value),
     scrapeGeneric url w = (inr r, w') ->
     exists resp w1 doc priceStr,
       axios_get (VStr url) genericConfig w = (inr resp, w1) /\
       cheerio_load resp = inr doc /\
       genericPrice doc = VStr priceStr /\
       forall a b : string,
         priceStr = a +++ "," +++ b -> includes a "," = false ->
         prop r "price" = numOrZero (parseFloat (VStr (a +++ b)))) /\
  (forall (url : string) (w w' : World) (r : value),
     scrapeAlibaba url w = (inr r, w') ->
     exists resp w1 doc priceStr,
       axios_get (VStr url) alibabaConfig w = (inr resp, w1) /\
       cheerio_load resp = inr doc /\
       alibabaPrice doc = VStr priceStr /\
       forall a b : string,
         priceStr = a +++ "," +++ b -> includes a "," = false ->
         prop r "price" = numOrZero (parseFloat (VStr (a +++ b)))).
Proof.
  split; intros url w w' r H.
  - unfold scrapeGeneric in H. run H. subst r.
    match goal with
    | S : asString _ (genericPrice ?d) = inr ?p |- _ =>
        destruct (genericPrice d) eqn:G; try discriminate S;
        inversion S; subst p
    end.
    do 4 eexists. split; [eassumption |]. split; [eassumption |].
    split; [eassumption |].
    intros x y -> Nx. cbn -[replaceFirst append numOrZero].
    rewrite (replaceFirst_comma x y Nx). reflexivity.
  - unfold scrapeAlibaba in H. run H. subst r.
    match goal with
    | S : asString _ (alibabaPrice ?d) = inr ?p |- _ =>
        destruct (alibabaPrice d) eqn:G; try discriminate S;
        inversion S; subst p
    end.
    do 4 eexists. split; [eassumption |]. split; [eassumption |].
    split; [eassumption |].
    intros x y -> Nx. cbn -[replaceFirst append numOrZero].
    rewrite (replaceFirst_comma x y Nx). reflexivity.
Qed.

Lemma trimEnd_idem s : trimEnd (trimEnd s) = trimEnd s.
Proof.
  induction s as [| c rest IH]; simpl; [reflexivity |].
  destruct (trimEnd rest) as [| d t] eqn:E.
  - destruct (isSpace c) eqn:Sc; simpl; [reflexivity |]. rewrite Sc. reflexivity.
  - change (trimEnd (String c (String d t)))
      with (match trimEnd (String d t) with
            | EmptyString => if isSpace c then EmptyString else String c EmptyString
            | u => String c u
            end).
    rewrite IH. reflexivity.
Qed.

Lemma trimStart_head s :
  trimStart s = "" \/
  exists c r, trimStart s = String c r /\ isSpace c = false.
Proof.
  induction s as [| c rest IH]; simpl; [left; reflexivity |].
  destruct (isSpace c) eqn:Sc; [exact IH |].
  right. exists c, rest. auto.
Qed.

Lemma trim_idem s : trim (trim s) = trim s.
Proof.
  unfold trim.
  destruct (trimStart_head s) as [E | (c & r & E & Nc)]; rewrite E.
  - reflexivity.
  - assert (H : exists r', trimEnd (String c r) = String c r').
    { simpl. destruct (trimEnd r); [rewrite Nc |]; eauto. }
    destruct H as (r' & H). rewrite H.
    simpl trimStart. rewrite Nc. rewrite <- H. apply trimEnd_idem.
Qed.

Lemma orElse_trimmed a b :
  (exists x, a = VStr (trim x)) -> (exists y, b = VStr (trim y)) ->
  exists z, a ||| b = VStr (trim z).
Proof.
  intros A B. unfold orElse. destruct (truthy a); assumption.
Qed.

(** X14. The title of a candidate of the Amazon, Alibaba or generic
    extractor is always a string without white space at its ends, so on
    such a candidate the check of [scrape] never throws. *)
Theorem page_title_trimmed :
  forall (platform url : string) (w w1 : World) (r : value),
    extract platform url w = (inr r, w1) ->
    platform <> "aliexpress" ->
    exists s,
      prop r "title" = VStr s /\
      trim s = s /\
      exists verdict, invalidData r = inr verdict.
Proof.
  intros platform url w w1 r H Np.
  assert (T : exists z, prop r "title" = VStr (trim z)).
  { unfold extract in H.
    destruct (String.eqb_spec platform "aliexpress") as [Pa | _];
      [contradiction |].
    destruct (String.eqb platform "amazon");
      [| destruct (String.eqb platform "alibaba")].
    - unfold scrapeAmazon in H. run H. subst r.
      apply orElse_trimmed; eauto.
    - unfold scrapeAlibaba in H. run H. subst r.
      apply orElse_trimmed; eauto.
    - unfold scrapeGeneric in H. run H. subst r.
      apply orElse_trimmed; [apply orElse_trimmed |]; eauto. }
  destruct T as (z & T). exists (trim z).
  split; [exact T |]. split; [apply trim_idem |].
  unfold invalidData. rewrite T.
  destruct (truthy (VStr (trim z))); simpl; [| eauto].
  destruct (includes (trim z) "404"); [eauto |].
  destruct (Nat.ltb (String.length (trim z)) 5); eauto.
Qed.

(** X15. The fetch of the description of an AliExpress page never makes the
    extractor fail: without a description URL in the page data no request is
    sent and the description is the empty string; with one, the description
    is what the request returns, or the empty string when it throws. *)
Theorem aliDescription_total : forall (pageData : value) (w : World),
  exists d w',
    aliDescription pageData w = (inr d, w') /\
    let descriptionUrl :=
      optProp (optProp pageData "descriptionModule") "descriptionUrl" in
    (truthy descriptionUrl = false /\ d = VStr "" /\ w' = w)
    \/
    (truthy descriptionUrl = true /\
     (axios_get descriptionUrl noConfig w = (inr d, w')
      \/
      exists e, axios_get descriptionUrl noConfig w = (inl e, w') /\ d = VStr "")).
Proof.
  intros pageData w. unfold aliDescription.
  destruct (truthy (optProp (optProp pageData "descriptionModule") "descriptionUrl")).
  - unfold tryCatch.
    destruct (axios_get _ noConfig w) as [[e | d] w1] eqn:A.
    + exists (VStr ""), w1. split; [reflexivity |]. right.
      split; [reflexivity |]. right. exists e. auto.
    + exists d, w1. split; [reflexivity |]. right. auto.
  - exists (VStr ""), w. split; [reflexivity |]. left. auto.
Qed.

Lemma aliParseFirst_cons content pattern rest :
  aliParseFirst content (pattern :: rest) =
  match patternData content pattern with
  | Some v => Some v
  | None => aliParseFirst content rest
  end.
Proof.
  unfold patternData. cbn [aliParseFirst].
  destruct (re_match pattern content) as [m |]; [| reflexivity].
  destruct (nth_error m 1) as [captured |]; [| reflexivity].
  destruct (JSON_parse captured); reflexivity.
Qed.

(** X16. Embedded data that does not parse is skipped, not fatal: for one
    script, the data found is that of the first pattern, in the order of the
    list, that matches with a group that is valid JSON; every pattern before
    it yielded nothing, and when the result is none, no pattern yields any. *)
Theorem aliParseFirst_first : forall (content : string) (patterns : list RegExp),
  match aliParseFirst content patterns with
  | Some v =>
      exists before pattern after,
        patterns = before ++ pattern :: after /\
        Forall (fun q => patternData content q = None) before /\
        patternData content pattern = Some v
  | None => Forall (fun q => patternData content q = None) patterns
  end.
Proof.
  intros content patterns.
  induction patterns as [| pattern rest IH].
  - simpl. constructor.
  - rewrite aliParseFirst_cons.
    destruct (patternData content pattern) as [v |] eqn:P.
    + exists [], pattern, rest. split; [reflexivity |]. split; [constructor | exact P].
    + destruct (aliParseFirst content rest) as [v |].
      * destruct IH as (before & q & after & -> & F & Q).
        exists (pattern :: before), q, after.
        split; [reflexivity |]. split; [constructor; assumption | exact Q].
      * constructor; assumption.
Qed.

End Properties.

(* ================================================================== *)
(** ** Scenarios *)
(* ================================================================== *)

(** The theorems above at concrete pages and responses. *)

(** The blog page has a title and no price: the generic extractor returns a
    candidate of price 0, and [scrape] answers with the demo product. *)
Lemma scrape_rejected_gives_demo_blog :
  let RT := Mock.runtime Mock.blog in
  Rejected (fst (extract (detectPlatform Mock.blogUrl) Mock.blogUrl Mock.clock0)) /\
  exists r w',
    scrape Mock.blogUrl Mock.clock0 = (inr r, w') /\
    prop r "title" = VStr "Premium Wireless Bluetooth Earbuds Pro" /\
    prop r "price" = VNum num_49_99 /\
    prop r "isDemo" = VBool true.
Proof.
  intro RT.
  assert (R : Rejected (fst (extract (detectPlatform Mock.blogUrl) Mock.blogUrl Mock.clock0))).
  { apply RejectedNoPrice. reflexivity. }
  split; [exact R |].
  refine (proj2 (@scrape_rejected_gives_demo RT Mock.blogUrl Mock.clock0
                   (snd (@extract RT (detectPlatform Mock.blogUrl) Mock.blogUrl Mock.clock0))
                   _ _ R)).
  apply surjective_pairing.
Defined.


(** C4, as stated, fails: the record returned for the cjdropshipping page is
    the candidate of the generic extractor, and its [isDemo] is not [false]:
    the key is absent. *)
Lemma accepted_candidate_without_isDemo :
  let RT := Mock.runtime Mock.cj in
  exists r w',
    extract (detectPlatform Mock.cjUrl) Mock.cjUrl Mock.clock0 = (inr r, w') /\
    scrape Mock.cjUrl Mock.clock0 = (inr r, w') /\
    prop r "isDemo" = VUndef /\
    prop r "isDemo" <> VBool false.
Proof.
  intro RT. do 2 eexists.
  split; [vm_compute; reflexivity |]. split; [vm_compute; reflexivity |].
  split; [vm_compute; reflexivity |]. intro E. vm_compute in E. discriminate E.
Qed.

(** The cjdropshipping page passes the check and is returned as it is. *)
Lemma scrape_accepts_candidate_cj :
  let RT := Mock.runtime Mock.cj in
  exists candidate w1,
    invalidData candidate = inr false /\
    scrape Mock.cjUrl Mock.clock0 = (inr candidate, w1) /\
    prop candidate "isDemo" = VUndef.
Proof.
  intro RT.
  destruct (@extract RT (detectPlatform Mock.cjUrl) Mock.cjUrl Mock.clock0)
    as [[e | candidate] w1] eqn:E; [vm_compute in E; discriminate E |].
  assert (V : invalidData candidate = inr false).
  { vm_compute in E. inversion E. reflexivity. }
  exists candidate, w1. split; [exact V |].
  exact (@scrape_accepts_candidate RT Mock.cjUrl Mock.clock0 w1 candidate E V).
Defined.

(** C5, as stated, fails: the detector says cj, the record returned for the
    page says generic. *)
Lemma cj_record_platform_generic :
  let RT := Mock.runtime Mock.cj in
  detectPlatform Mock.cjUrl = "cj" /\
  exists r w',
    scrape Mock.cjUrl Mock.clock0 = (inr r, w') /\
    prop r "platform" = VStr "generic" /\
    prop r "platform" <> VStr (detectPlatform Mock.cjUrl).
Proof.
  intro RT. split; [vm_compute; reflexivity |]. do 2 eexists.
  split; [vm_compute; reflexivity |]. split; [vm_compute; reflexivity |].
  intro E. vm_compute in E. discriminate E.
Qed.

(** C6, as stated, fails: a URL of 1688.com gets the identifier 1688, which
    is none of aliexpress, amazon, alibaba, cj and generic (genericHttp in
    the words of the specification). *)
Lemma detectPlatform_1688 :
  detectPlatform "https://detail.1688.com/offer/600000000001.html" = "1688" /\
  ~ In (detectPlatform "https://detail.1688.com/offer/600000000001.html")
       ["aliexpress"; "amazon"; "alibaba"; "cj"; "generic"; "genericHttp"].
Proof.
  split; [vm_compute; reflexivity |].
  vm_compute. intuition discriminate.
Qed.

(** Two spellings of one AliExpress URL get the same platform. *)
Lemma detectPlatform_table_case :
  detectPlatform "AliExpress.com/item/1" = detectPlatform "aliexpress.com/item/1" /\
  detectPlatform "aliexpress.com/item/1" = "aliexpress".
Proof.
  split; [| reflexivity].
  apply (proj1 (proj2 (proj2 (proj2 (detectPlatform_table "aliexpress.com/item/1"))))).
  reflexivity.
Defined.

(** C7 at the failing input: item 1005001234567890 is answered by the mobile
    API, and the record [scrape] returns has no key [url]. *)
Lemma api_record_lacks_url :
  let RT := Mock.runtime Mock.aliApi in
  exists r w',
    scrape Mock.aliUrl Mock.clock0 = (inr r, w') /\
    prop r "title" = VStr "Wireless Charger" /\
    prop r "isDemo" = VUndef /\
    prop r "url" = VUndef /\
    prop r "url" <> VStr Mock.aliUrl.
Proof.
  intro RT. do 2 eexists.
  split; [vm_compute; reflexivity |]. split; [vm_compute; reflexivity |].
  split; [vm_compute; reflexivity |]. split; [vm_compute; reflexivity |].
  intro E. vm_compute in E. discriminate E.
Qed.

(** C8, as stated, fails: the inline image of the Alibaba gallery is in the
    returned [images]. *)
Lemma alibaba_record_has_data_uri :
  let RT := Mock.runtime Mock.alibaba in
  exists r w' imgs,
    scrape Mock.alibabaUrl Mock.clock0 = (inr r, w') /\
    prop r "isDemo" = VUndef /\
    prop r "images" = VArr imgs /\
    In (VStr "data:image/gif;base64,R0lGODlhAQABAAAAACw=") imgs /\
    startsWith "data:image/gif;base64,R0lGODlhAQABAAAAACw=" "data:" = true.
Proof.
  intro RT. do 3 eexists.
  split; [vm_compute; reflexivity |]. split; [vm_compute; reflexivity |]. split; [vm_compute; reflexivity |].
  split; [left; reflexivity | reflexivity].
Qed.

(** The shop page with twenty images: the inline one is skipped, the
    repeated one is kept once, the protocol-relative one is resolved, and of
    the eighteen addresses the first fifteen are returned. *)
Lemma scrape_images_bounds_gallery :
  let RT := Mock.runtime Mock.gallery in
  exists r w' imgs,
    scrape Mock.galleryUrl Mock.clock0 = (inr r, w') /\
    prop r "images" = VArr imgs /\
    List.length imgs = 15 /\
    NoDup (urlStrings imgs) /\
    Forall (KeptSrc Mock.galleryUrl) imgs /\
    firstn 2 imgs = [ VStr "https://cdn.example.org/i/01.jpg";
                      VStr "https://cdn.example.org/i/02.jpg" ] /\
    ~ In (VStr "data:image/gif;base64,R0lGODlhAQABAAAAACw=") imgs.
Proof.
  intro RT.
  destruct (@scrape_images_bounds RT Mock.galleryUrl Mock.clock0)
    as (r & w' & S & F).
  assert (P : detectPlatform Mock.galleryUrl <> "aliexpress" \/
              fst (@aliTryAPI RT (aliProductId Mock.galleryUrl) Mock.clock0)
              <> inr (Some r)).
  { left. vm_compute. discriminate. }
  destruct (F P) as (imgs & Hi & _ & [[A _] | N] & K);
    [vm_compute in A; discriminate A |].
  vm_compute in S. inversion S; subst r w'; clear S.
  vm_compute in Hi. inversion Hi; subst imgs; clear Hi.
  destruct K as [(D & _) | (_ & K)]; [vm_compute in D; discriminate D |].
  do 3 eexists. split; [vm_compute; reflexivity |].
  split; [vm_compute; reflexivity |].
  split; [reflexivity |]. split; [exact N |].
  split; [apply K; reflexivity |].
  split; [reflexivity |].
  vm_compute. intuition discriminate.
Defined.



(** Two behaviours that the amended C8 neither promises nor denies.  The
    Alibaba loop tests membership on the [src] as found and pushes the
    rewritten one, so the same protocol-relative [src] is pushed twice; the
    record of the mobile API holds the images as the API listed them. *)
Lemma alibaba_same_src_twice :
  let RT := Mock.runtime Mock.alibabaTwice in
  exists r w',
    scrape Mock.alibabaUrl Mock.clock0 = (inr r, w') /\
    prop r "images" = VArr [ VStr "https://s.alicdn.com/kf/bottle.jpg";
                             VStr "https://s.alicdn.com/kf/bottle.jpg" ].
Proof.
  intro RT. do 2 eexists. split; vm_compute; reflexivity.
Qed.

Lemma api_images_as_listed :
  let RT := Mock.runtime Mock.aliApiTwice in
  exists r w',
    scrape Mock.aliUrl Mock.clock0 = (inr r, w') /\
    prop r "images" = VArr [ VStr "https://ae01.alicdn.com/kf/charger.jpg";
                             VStr "https://ae01.alicdn.com/kf/charger.jpg" ].
Proof.
  intro RT. do 2 eexists. split; vm_compute; reflexivity.
Qed.

(* ------------------------------------------------------------------ *)
(** *** Scenarios for the further properties *)

(** The mobile API supplies a candidate whose title the check rejects: the
    record returned is the demo product, priced 49.99. *)
Lemma scrape_price_number_api_rejected :
  let RT := Mock.runtime Mock.aliApiErrorPage in
  exists r w' candidate m,
    scrape Mock.aliUrl Mock.clock0 = (inr r, w') /\
    fst (aliTryAPI (aliProductId Mock.aliUrl) Mock.clock0) = inr (Some candidate) /\
    prop candidate "title" = VStr "Item 404 Pro" /\
    prop r "isDemo" = VBool true /\
    prop r "price" = VNum m /\
    isNaN m = false /\
    isZero m = false.
Proof.
  intro RT.
  destruct (@scrape_price_number RT Mock.aliUrl Mock.clock0)
    as (r & w' & S & F).
  vm_compute in S. inversion S; subst r w'; clear S.
  match type of F with
  | ?H -> _ => assert (P : H)
  end.
  { right. intro E.
    apply (f_equal (fun o => match o with
                             | inr (Some v) => prop v "isDemo"
                             | _ => VNull
                             end)) in E.
    vm_compute in E. discriminate E. }
  destruct (F P) as (m & Hp & Hn & Hz).
  do 2 eexists. exists
    (match fst (@aliTryAPI RT (aliProductId Mock.aliUrl) Mock.clock0) with
     | inr (Some v) => v
     | _ => VNull
     end), m.
  split; [vm_compute; reflexivity |].
  split; [vm_compute; reflexivity |].
  split; [vm_compute; reflexivity |].
  split; [reflexivity |]. auto.
Defined.

(** The AliExpress page without any title: the record says "Product" and is
    returned. *)
Lemma scrapeAliExpress_title_plain :
  let RT := Mock.runtime Mock.aliPlain in
  exists r w',
    scrapeAliExpress Mock.aliUrl Mock.clock0 = (inr r, w') /\
    prop r "title" = VStr "Product" /\
    truthy (prop r "title") = true /\
    scrape Mock.aliUrl Mock.clock0 = (inr r, w').
Proof.
  intro RT.
  destruct (@scrapeAliExpress RT Mock.aliUrl Mock.clock0) as [[e | r] w'] eqn:E;
    [vm_compute in E; discriminate E |].
  exists r, w'. split; [reflexivity |].
  pose proof (@scrapeAliExpress_title RT Mock.aliUrl Mock.clock0 w' r E) as T.
  vm_compute in E. inversion E; subst r w'.
  split; [reflexivity |]. split; [exact T |]. vm_compute. reflexivity.
Defined.

(** The Amazon page: its main image is the first entry. *)
Lemma amazonImages_main_first_kettle :
  let RT := Mock.runtime Mock.amazon in
  exists out more,
    amazonImages Mock.amazonPage = inr out /\
    out = VStr "//m.media-amazon.com/images/I/kettle.jpg" :: more.
Proof.
  intro RT.
  destruct (@amazonImages RT Mock.amazonPage) as [e | out] eqn:E;
    [vm_compute in E; discriminate E |].
  destruct (@amazonImages_main_first RT Mock.amazonPage out E)
    as (main & more & Em & _ & Eo & _).
  vm_compute in Em. inversion Em; subst main.
  exists out, more. split; [reflexivity | exact Eo].
Defined.

(** The blog page has no price text: the answer is the demo product. *)
Lemma generic_without_price_demo_blog :
  let RT := Mock.runtime Mock.blog in
  exists r w',
    scrape Mock.blogUrl Mock.clock0 = (inr r, w') /\
    prop r "isDemo" = VBool true /\
    prop r "platform" = VStr (detectPlatform Mock.blogUrl).
Proof.
  intro RT.
  apply (@generic_without_price_demo RT Mock.blogUrl Mock.clock0 Mock.clock0
           (VStr Mock.blogHtml) Mock.blogPage); reflexivity.
Defined.

(** A mixed-case AliExpress host with an Amazon referrer in the query. *)
Lemma detectPlatform_occurrence_mixed :
  detectPlatform "https://www.AliExpress.com/item/1.html?ref=amazon.com" = "aliexpress".
Proof.
  exact (detectPlatform_occurrence "https://www." "AliExpress."
           "com/item/1.html?ref=amazon.com" eq_refl).
Defined.

(** An empty body is answered 400 without any request. *)
Lemma apiScrape_bad_request_empty :
  let RT := Mock.runtime Mock.offline in
  exists resp msg,
    apiScrape (VObj []) Mock.clock0 = (inr resp, Mock.clock0) /\
    status resp = 400 /\
    json resp = VObj [("error", VStr msg)].
Proof.
  intro RT.
  exact (@apiScrape_bad_request RT (VObj []) Mock.clock0 eq_refl).
Defined.

(** A request for the cjdropshipping page is answered 200 with the record. *)
Lemma apiScrape_ok_cj :
  let RT := Mock.runtime Mock.cj in
  exists r w',
    scrape Mock.cjUrl Mock.clock0 = (inr r, w') /\
    invalidData r = inr false /\
    apiScrape (VObj [("url", VStr Mock.cjUrl)]) Mock.clock0 =
    (inr (mkResponse 200 (VObj [("success", VBool true); ("data", r)])), w').
Proof.
  intro RT.
  apply (@apiScrape_ok RT (VObj [("url", VStr Mock.cjUrl)]) Mock.cjUrl Mock.clock0).
  - reflexivity.
  - discriminate.
Defined.

(** The AliExpress page with a null SKU property: the demo product. *)
Lemma aliexpress_null_variant_demo_page :
  let RT := Mock.runtime Mock.nullSku in
  exists r w',
    scrape Mock.aliUrl Mock.clock0 = (inr r, w') /\
    prop r "isDemo" = VBool true /\
    prop r "title" = VStr "Premium Wireless Bluetooth Earbuds Pro".
Proof.
  intro RT.
  apply (@aliexpress_null_variant_demo RT Mock.aliUrl Mock.clock0 Mock.clock0
           Mock.clock0 (VStr Mock.nullSkuHtml) Mock.nullSkuPage [VNull] VNull).
  - reflexivity.
  - vm_compute. reflexivity.
  - reflexivity.
  - reflexivity.
  - vm_compute. reflexivity.
  - left. reflexivity.
  - reflexivity.
Defined.

(** The shop page: "1,234,567.50" is read as 1234. *)
Lemma price_first_comma_only_shop :
  let RT := Mock.runtime Mock.shop in
  exists r w',
    scrapeGeneric Mock.shopUrl Mock.clock0 = (inr r, w') /\
    prop r "price" = VNum Mock.num_1234.
Proof.
  intro RT.
  destruct (@scrapeGeneric RT Mock.shopUrl Mock.clock0) as [[e | r] w'] eqn:E;
    [vm_compute in E; discriminate E |].
  exists r, w'. split; [reflexivity |].
  destruct (proj1 (@price_first_comma_only RT) Mock.shopUrl Mock.clock0 w' r E)
    as (resp & w1 & doc & priceStr & A & C & G & P).
  vm_compute in A. inversion A; subst resp w1.
  vm_compute in C. inversion C; subst doc.
  vm_compute in G. inversion G; subst priceStr.
  rewrite (P "1" "234,567.50" eq_refl eq_refl). reflexivity.
Defined.

(** The title of the cjdropshipping candidate is a trimmed string. *)
Lemma page_title_trimmed_cj :
  let RT := Mock.runtime Mock.cj in
  exists r w1 s,
    extract "cj" Mock.cjUrl Mock.clock0 = (inr r, w1) /\
    prop r "title" = VStr s /\
    trim s = s.
Proof.
  intro RT.
  destruct (@extract RT "cj" Mock.cjUrl Mock.clock0) as [[e | r] w1] eqn:E;
    [vm_compute in E; discriminate E |].
  assert (N : "cj" <> "aliexpress") by discriminate.
  destruct (@page_title_trimmed RT "cj" Mock.cjUrl Mock.clock0 w1 r E N)
    as (s & T & I & _).
  exists r, w1, s. auto.
Defined.

(** The record of the mobile API keeps a price that is not a number: the
    guard [|| 0] of the page extractors is not on that path. *)
Lemma api_price_may_be_NaN :
  let RT := Mock.runtime
    (Mock.mkScenario
       [ ("https://m.aliexpress.com/api/detail/v1/item/1005001234567890",
          inr (VObj [ ("item", VObj
            [ ("title", VStr "Wireless Charger");
              ("sku", VObj [ ("def", VObj [ ("price", VStr "n/a") ]) ]) ]) ])) ]
       []
       [ ("\/item\/(\d+)\.html", Mock.aliUrl,
          ["/item/1005001234567890.html"; "1005001234567890"]) ]
       [] [] [] [] []) in
  exists r w',
    scrape Mock.aliUrl Mock.clock0 = (inr r, w') /\
    prop r "price" = VNum S754_nan /\
    prop r "isDemo" = VUndef.
Proof.
  intro RT. do 2 eexists. split; [vm_compute; reflexivity |].
  split; reflexivity.
Qed.
